(** * ro.py pagination iterators: a shallow embedding of
      [roblox/utilities/iterators.py] and the properties of its state machines.

    The module under study turns paged HTTP responses into two lazy views
    (items and pages) over two pagination protocols (opaque cursors and page
    numbers).  Everything the Python code does with a value is dynamically
    typed, so the embedding works over one type of Python values and makes
    every implicit failure (a missing key, a value that cannot be iterated,
    an index out of range) an explicit exceptional result.  State that
    survives an exception (the attributes assigned before the [raise]) is
    threaded explicitly: every operation returns the object and the world it
    left behind, also when it raises. *)

From Stdlib Require Import ZArith.
From stdpp Require Import gmap strings list pretty.

Local Open Scope Z_scope.
Local Set Warnings "-register-all".

(** ** Python values and the primitive operations the iterators use *)

Module Py.

(** Values that flow through the iterators: decoded JSON ([None], booleans,
    integers, strings, lists, dictionaries in insertion order) and the
    domain objects a handler builds (opaque: a class name and attributes).
    JSON numbers are kept to integers. *)
Inductive value : Type :=
| VNone
| VBool (b : bool)
| VInt (z : Z)
| VStr (s : string)
| VList (l : list value)
| VDict (d : list (string * value))
| VObj (cls : string) (attrs : list (string * value)).

(** Exceptions.  [NoMoreItems] and [StopAsyncIteration] are the two control
    signals of the module; [IndexError], [KeyError] and [TypeError] are
    raised by Python's own subscripting, [len] and iteration;
    [NotImplementedError] by the abstract [Iterator.next].  [Foreign] stands
    for the failures of the library's own collaborators (the HTTP
    transport, [response.json()], the constructors of the domain classes).
    A handler is the caller's code and may raise any of these. *)
Inductive exn : Type :=
| NoMoreItems (msg : string)
| StopAsyncIteration
| IndexError
| KeyError (key : value)
| TypeError
| NotImplementedError
| Foreign (name : string).

Inductive result (A : Type) : Type :=
| Ok (a : A)
| Raise (e : exn).
Arguments Ok {A} a.
Arguments Raise {A} e.

(** What a call into one of the library's collaborators produces: a value
    or a failure of its own. *)
Inductive outcome (A : Type) : Type :=
| Returns (a : A)
| Fails (name : string).
Arguments Returns {A} a.
Arguments Fails {A} name.

Definition of_outcome {A} (o : outcome A) : result A :=
  match o with
  | Returns a => Ok a
  | Fails name => Raise (Foreign name)
  end.

Definition is_NoMoreItems (e : exn) : bool :=
  match e with NoMoreItems _ => true | _ => false end.

Definition is_IndexError (e : exn) : bool :=
  match e with IndexError => true | _ => false end.

(** [bool(v)]: the truth value Python gives [v] in [if], [and], [not]. *)
Definition truthy (v : value) : bool :=
  match v with
  | VNone => false
  | VBool b => b
  | VInt z => negb (z =? 0)
  | VStr s => negb (String.eqb s "")
  | VList l => match l with [] => false | _ => true end
  | VDict d => match d with [] => false | _ => true end
  | VObj _ _ => true
  end.

(** [len(v)] *)
Definition len (v : value) : result Z :=
  match v with
  | VList l => Ok (Z.of_nat (length l))
  | VStr s => Ok (Z.of_nat (String.length s))
  | VDict d => Ok (Z.of_nat (length d))
  | _ => Raise TypeError
  end.

(** A sequence index the way Python resolves it: negative indices count
    from the end, anything outside [-n, n) is out of range. *)
Definition seq_index (n i : Z) : option nat :=
  if (0 <=? i) && (i <? n) then Some (Z.to_nat i)
  else if (- n <=? i) && (i <? 0) then Some (Z.to_nat (n + i))
  else None.

Fixpoint chars (s : string) : list value :=
  match s with
  | EmptyString => []
  | String c s' => VStr (String c EmptyString) :: chars s'
  end.

(** [v[i]] for an integer [i].  A dictionary decoded from JSON has string
    keys only, so an integer subscript on it is a [KeyError]. *)
Definition getitem_int (v : value) (i : Z) : result value :=
  match v with
  | VList l =>
      match seq_index (Z.of_nat (length l)) i with
      | Some n => match l !! n with Some x => Ok x | None => Raise IndexError end
      | None => Raise IndexError
      end
  | VStr s =>
      match seq_index (Z.of_nat (String.length s)) i with
      | Some n => match chars s !! n with Some x => Ok x | None => Raise IndexError end
      | None => Raise IndexError
      end
  | VDict _ => Raise (KeyError (VInt i))
  | _ => Raise TypeError
  end.

Fixpoint assoc (k : string) (d : list (string * value)) : option value :=
  match d with
  | [] => None
  | (k', v) :: d' => if String.eqb k k' then Some v else assoc k d'
  end.

(** [v[k]] for a string [k]: only a dictionary can be subscripted by a
    string, and a missing key raises [KeyError]. *)
Definition getitem_str (v : value) (k : string) : result value :=
  match v with
  | VDict d =>
      match assoc k d with
      | Some x => Ok x
      | None => Raise (KeyError (VStr k))
      end
  | _ => Raise TypeError
  end.

(** The elements [for x in v] and [list += v] go through. *)
Definition iter (v : value) : result (list value) :=
  match v with
  | VList l => Ok l
  | VStr s => Ok (chars s)
  | VDict d => Ok (map (fun kv => VStr (fst kv)) d)
  | _ => Raise TypeError
  end.

End Py.
Import Py.

(** ** The transport collaborator *)

Module Transport.

(** One GET: the URL and the query parameters.  The parameters are a
    Python dict literal with [**extra] spliced last, modelled as a finite
    map in which the extra entries take precedence. *)
Record request : Type := {
  req_url : string;
  req_params : gmap string value
}.

(** The world an iterator runs in: the remote server (an arbitrary
    deterministic machine with its own state) and the record of every
    request sent so far, oldest first. *)
Record world (Srv : Type) : Type := {
  srv : Srv;
  log : list request
}.
Arguments srv {Srv} w.
Arguments log {Srv} w.

Section WithServer.
Context {Srv : Type}.
Variable respond : Srv -> request -> outcome value * Srv.

(** [await self._shared.requests.get(url=..., params=...)] followed by
    [.json()]: sends the request, records it, and yields the decoded body
    or the transport's failure. *)
Definition requests_get (url : string) (params : gmap string value)
    (w : world Srv) : result value * world Srv :=
  let rq := {| req_url := url; req_params := params |} in
  let '(o, s') := respond (srv w) rq in
  (of_outcome o, {| srv := s'; log := log w ++ [rq] |}).
End WithServer.

End Transport.
Import Transport.

(** ** Computations over an object and the world *)

Module Run.

Section WithServer.
Context {Srv : Type}.

(** A method body: from the object [self] and the world to a result, the
    object as it was left (also after a [raise]) and the world. *)
Definition M (O A : Type) : Type :=
  O -> world Srv -> result A * O * world Srv.

Definition ret {O A} (a : A) : M O A := fun o w => (Ok a, o, w).

Definition raise {O A} (e : exn) : M O A := fun o w => (Raise e, o, w).

Definition bind {O A B} (m : M O A) (k : A -> M O B) : M O B :=
  fun o w =>
    match m o w with
    | (Ok a, o', w') => k a o' w'
    | (Raise e, o', w') => (Raise e, o', w')
    end.

Definition self {O} : M O O := fun o w => (Ok o, o, w).

Definition assign {O} (f : O -> O) : M O unit := fun o w => (Ok tt, f o, w).

Definition lift {O A} (r : result A) : M O A := fun o w => (r, o, w).

Definition io {O A} (f : world Srv -> result A * world Srv) : M O A :=
  fun o w => let '(r, w') := f w in (r, o, w').

(** [try: m except <handles>: h] *)
Definition try_except {O A} (m : M O A) (handles : exn -> bool)
    (h : M O A) : M O A :=
  fun o w =>
    match m o w with
    | (Raise e, o', w') =>
        if handles e then h o' w' else (Raise e, o', w')
    | r => r
    end.

Fixpoint mapM {A B} (f : A -> result B) (l : list A) : result (list B) :=
  match l with
  | [] => Ok []
  | x :: l' =>
      match f x with
      | Ok y =>
          match mapM f l' with
          | Ok ys => Ok (y :: ys)
          | Raise e => Raise e
          end
      | Raise e => Raise e
      end
  end.
End WithServer.

End Run.
Import Run.

Notation "'let*' x ':=' m 'in' k" := (bind m (fun x => k))
  (at level 10, x name, m at level 100, k at level 200).
Notation "'do' m 'then' k" := (bind m (fun _ => k))
  (at level 10, m at level 100, k at level 200).

(** ** [class SortOrder(Enum)] *)

Module SortOrder.
Inductive t : Type := Ascending | Descending.

(** The enum member's [.value], the token sent as [sortOrder]. *)
Definition value (o : t) : string :=
  match o with
  | Ascending => "Asc"
  | Descending => "Desc"
  end.
End SortOrder.

(** A handler: called as [handler(shared=..., data=item, **handler_kwargs)],
    it builds a domain object from one raw record.  It is whatever callable
    the caller supplied, so it may raise any exception, [NoMoreItems] and
    [StopAsyncIteration] included. *)
Definition Handler : Type := gmap string value -> value -> result value.

(** [[handler(shared=..., data=item_data, **kwargs) for item_data in data]]
    when a handler is set, [data] itself otherwise. *)
Definition apply_handler (handler : option Handler)
    (handler_kwargs : gmap string value) (data : value) : result value :=
  match handler with
  | Some h =>
      match iter data with
      | Ok raw =>
          match mapM (fun item_data => h handler_kwargs item_data) raw with
          | Ok objs => Ok (VList objs)
          | Raise e => Raise e
          end
      | Raise e => Raise e
      end
  | None => Ok data
  end.

(** ** [class Iterator]: the abstract base and what it gives its subclasses *)

Module Iterator.

Section WithServer.
Context {Srv I : Type}.

(** [Iterator.next] itself: abstract. *)
Definition next : M (Srv:=Srv) I value := raise NotImplementedError.

(** The [next] of the concrete class, reached through [self.next()]. *)
Variable self_next : M (Srv:=Srv) I value.

(** One turn of the [while True] loop of [flatten]: [Some] of the grown
    list to go on, [None] for [break]. *)
Definition flatten_step (items : list value) : M I (option (list value)) :=
  try_except
    (let* new_items := self_next in
     let* more := lift (iter new_items) in
     ret (Some (items ++ more)))
    is_NoMoreItems
    (ret None).

(** [flatten] loops until [NoMoreItems]; [fuel] bounds the number of
    turns, [None] meaning the bound was hit before the loop ended. *)
Fixpoint flatten_loop (fuel : nat) (items : list value) (self : I)
    (w : world Srv) : option (result (list value) * I * world Srv) :=
  match fuel with
  | O => None
  | S fuel' =>
      match flatten_step items self w with
      | (Ok (Some items'), self', w') => flatten_loop fuel' items' self' w'
      | (Ok None, self', w') => Some (Ok items, self', w')
      | (Raise e, self', w') => Some (Raise e, self', w')
      end
  end.

Definition flatten (fuel : nat) (self : I) (w : world Srv) :=
  flatten_loop fuel [] self w.
End WithServer.

End Iterator.

(** ** [class IteratorPages] *)

Module IteratorPages.

Section WithServer.
Context {Srv I : Type}.
Variable iterator_next : M (Srv:=Srv) I value.

(** The view has no attribute besides the reference to its iterator, so
    its methods run directly on the iterator. *)
Definition aiter : M (Srv:=Srv) I unit := ret tt.

Definition anext : M I value :=
  try_except iterator_next is_NoMoreItems (raise StopAsyncIteration).

(** [[page async for page in iterator.pages()]]: [__aiter__] once, then
    [__anext__] until [StopAsyncIteration]. *)
Fixpoint collect_loop (fuel : nat) (pages : list value) (self : I)
    (w : world Srv) : option (result (list value) * I * world Srv) :=
  match fuel with
  | O => None
  | S fuel' =>
      match anext self w with
      | (Ok page, self', w') => collect_loop fuel' (pages ++ [page]) self' w'
      | (Raise StopAsyncIteration, self', w') => Some (Ok pages, self', w')
      | (Raise e, self', w') => Some (Raise e, self', w')
      end
  end.

Definition collect (fuel : nat) (self : I) (w : world Srv) :=
  match aiter self w with
  | (Ok _, self', w') => collect_loop fuel [] self' w'
  | (Raise e, self', w') => Some (Raise e, self', w')
  end.
End WithServer.

End IteratorPages.

(** ** [class IteratorItems] *)

Module IteratorItems.

(** The view's own attributes; [_iterator] is a reference, so the methods
    run on the pair of the view and the iterator it points to. *)
Record t : Type := {
  _position : Z;
  _items : value
}.

Definition init : t := {| _position := 0; _items := VList [] |}.

Section WithServer.
Context {Srv I : Type}.
Variable iterator_next : M (Srv:=Srv) I value.

Definition set_position (p : Z) : M (Srv:=Srv) (t * I) unit :=
  assign (fun o => ({| _position := p; _items := _items (fst o) |}, snd o)).

Definition set_items (v : value) : M (Srv:=Srv) (t * I) unit :=
  assign (fun o => ({| _position := _position (fst o); _items := v |}, snd o)).

(** [await self._iterator.next()] *)
Definition call_iterator_next : M (t * I) value :=
  fun o w =>
    let '(r, it', w') := iterator_next (snd o) w in
    (r, (fst o, it'), w').

Definition aiter : M (Srv:=Srv) (t * I) unit :=
  do set_position 0 then
  do set_items (VList []) then
  ret tt.

Definition anext : M (t * I) value :=
  let* o := self in
  let* n := lift (len (_items (fst o))) in
  do (if _position (fst o) =? n then
        do set_position 0 then
        try_except
          (let* page := call_iterator_next in set_items page)
          is_NoMoreItems
          (do set_position 0 then
           do set_items (VList []) then
           raise StopAsyncIteration)
      else ret tt) then
  let* o := self in
  let* item :=
    try_except
      (lift (getitem_int (_items (fst o)) (_position (fst o))))
      is_IndexError
      (raise StopAsyncIteration) in
  do set_position (_position (fst o) + 1) then
  ret item.
End WithServer.

End IteratorItems.

(** ** [class PageIterator(Iterator)]: cursor pagination *)

Module PageIterator.

Record t : Type := {
  url : string;
  sort_order : SortOrder.t;
  limit : Z;
  extra_parameters : gmap string value;
  handler : option Handler;
  handler_kwargs : gmap string value;
  next_cursor : value;
  previous_cursor : value;
  iterator_position : Z;
  iterator_items : list value;
  next_started : bool
}.

(** [__init__]; an omitted (or empty) dict argument becomes [{}]. *)
Definition init (url : string) (sort_order : SortOrder.t) (limit : Z)
    (extra_parameters : option (gmap string value))
    (handler : option Handler)
    (handler_kwargs : option (gmap string value)) : t :=
  {| url := url;
     sort_order := sort_order;
     limit := limit;
     extra_parameters := default ∅ extra_parameters;
     handler := handler;
     handler_kwargs := default ∅ handler_kwargs;
     next_cursor := VStr "";
     previous_cursor := VStr "";
     iterator_position := 0;
     iterator_items := [];
     next_started := false |}.

Definition set_next_started (b : bool) (s : t) : t :=
  {| url := url s; sort_order := sort_order s; limit := limit s;
     extra_parameters := extra_parameters s; handler := handler s;
     handler_kwargs := handler_kwargs s; next_cursor := next_cursor s;
     previous_cursor := previous_cursor s;
     iterator_position := iterator_position s;
     iterator_items := iterator_items s; next_started := b |}.

Definition set_next_cursor (c : value) (s : t) : t :=
  {| url := url s; sort_order := sort_order s; limit := limit s;
     extra_parameters := extra_parameters s; handler := handler s;
     handler_kwargs := handler_kwargs s; next_cursor := c;
     previous_cursor := previous_cursor s;
     iterator_position := iterator_position s;
     iterator_items := iterator_items s; next_started := next_started s |}.

Definition set_previous_cursor (c : value) (s : t) : t :=
  {| url := url s; sort_order := sort_order s; limit := limit s;
     extra_parameters := extra_parameters s; handler := handler s;
     handler_kwargs := handler_kwargs s; next_cursor := next_cursor s;
     previous_cursor := c;
     iterator_position := iterator_position s;
     iterator_items := iterator_items s; next_started := next_started s |}.

(** The [params] dict of the GET: the three fixed keys, then [**extra]. *)
Definition params (s : t) : gmap string value :=
  extra_parameters s ∪
    {[ "cursor" := next_cursor s;
       "limit" := VInt (limit s);
       "sortOrder" := VStr (SortOrder.value (sort_order s)) ]}.

Section WithServer.
Context {Srv : Type}.
Variable respond : Srv -> request -> outcome value * Srv.

Definition next : M (Srv:=Srv) t value :=
  let* s := self in
  if next_started s && negb (truthy (next_cursor s)) then
    raise (NoMoreItems "No more items.")
  else
    do (if negb (next_started s) then assign (set_next_started true)
        else ret tt) then
    let* s := self in
    let* page_data := io (requests_get respond (url s) (params s)) in
    let* c := lift (getitem_str page_data "nextPageCursor") in
    do assign (set_next_cursor c) then
    let* c := lift (getitem_str page_data "previousPageCursor") in
    do assign (set_previous_cursor c) then
    let* data := lift (getitem_str page_data "data") in
    let* s := self in
    lift (apply_handler (handler s) (handler_kwargs s) data).

Definition flatten := Iterator.flatten next.
End WithServer.

End PageIterator.

(** ** [class PageNumberIterator(Iterator)]: numbered pages *)

Module PageNumberIterator.

Record t : Type := {
  url : string;
  page_number : Z;
  page_size : Z;
  extra_parameters : gmap string value;
  handler : option Handler;
  handler_kwargs : gmap string value;
  iterator_position : Z;
  iterator_items : list value
}.

Definition init (url : string) (page_size : Z)
    (extra_parameters : option (gmap string value))
    (handler : option Handler)
    (handler_kwargs : option (gmap string value)) : t :=
  {| url := url;
     page_number := 1;
     page_size := page_size;
     extra_parameters := default ∅ extra_parameters;
     handler := handler;
     handler_kwargs := default ∅ handler_kwargs;
     iterator_position := 0;
     iterator_items := [] |}.

Definition set_page_number (n : Z) (s : t) : t :=
  {| url := url s; page_number := n; page_size := page_size s;
     extra_parameters := extra_parameters s; handler := handler s;
     handler_kwargs := handler_kwargs s;
     iterator_position := iterator_position s;
     iterator_items := iterator_items s |}.

Definition params (s : t) : gmap string value :=
  extra_parameters s ∪
    {[ "pageNumber" := VInt (page_number s);
       "pageSize" := VInt (page_size s) ]}.

Section WithServer.
Context {Srv : Type}.
Variable respond : Srv -> request -> outcome value * Srv.

Definition next : M (Srv:=Srv) t value :=
  let* s := self in
  let* data := io (requests_get respond (url s) (params s)) in
  let* n := lift (len data) in
  if n =? 0 then
    raise (NoMoreItems "No more items.")
  else
    do assign (fun s => set_page_number (page_number s + 1) s) then
    let* s := self in
    lift (apply_handler (handler s) (handler_kwargs s) data).

Definition flatten := Iterator.flatten next.
End WithServer.

End PageNumberIterator.

(** ** Callers and servers used to state and exercise the properties *)

Module Caller.

Section WithServer.
Context {Srv I : Type}.
Variable next : M (Srv:=Srv) I value.

(** A caller that awaits [next()] [n] times in a row, whatever each call
    does, and keeps what each call returned or raised. *)
Fixpoint calls (n : nat) (it : I) (w : world Srv)
    : list (result value) * I * world Srv :=
  match n with
  | O => ([], it, w)
  | S n' =>
      let '(r, it1, w1) := next it w in
      let '(rs, it2, w2) := calls n' it1 w1 in
      (r :: rs, it2, w2)
  end.
End WithServer.

Definition exhausted (r : result value) : Prop :=
  exists msg, r = Raise (NoMoreItems msg).

Definition returned (r : result value) : Prop :=
  exists page, r = Ok page.

(** The failures the two concrete iterators raise on their own account or
    pass on from their collaborators. *)
Definition own_failure (e : exn) : Prop :=
  e = NoMoreItems "No more items." \/ e = TypeError \/
  (exists k, e = KeyError (VStr k)) \/ exists name, e = Foreign name.

Definition is_StopAsyncIteration (e : exn) : bool :=
  match e with StopAsyncIteration => true | _ => false end.

(** The handler raised [e] on some record. *)
Definition raised_by_handler (h : option Handler) (kw : gmap string value)
    (e : exn) : Prop :=
  exists f item, h = Some f /\ f kw item = Raise e.

(** The handler, if there is one, never raises an exception of [kind]. *)
Definition handler_never (kind : exn -> bool) (h : option Handler) : Prop :=
  forall f kw item e, h = Some f -> f kw item = Raise e -> kind e = false.

(** What [items += page] over the pages, in order, builds from []. *)
Fixpoint concat_pages (pages : list value) : result (list value) :=
  match pages with
  | [] => Ok []
  | page :: rest =>
      match iter page with
      | Ok xs =>
          match concat_pages rest with
          | Ok ys => Ok (xs ++ ys)
          | Raise e => Raise e
          end
      | Raise e => Raise e
      end
  end.

End Caller.

Module Server.

(** A server that answers identical requests identically: it has no state
    of its own and its answer is a function of the request. *)
Definition stationary {Srv : Type}
    (respond : Srv -> request -> outcome value * Srv) : Prop :=
  forall a b rq, fst (respond a rq) = fst (respond b rq).

(** A server playing a fixed script of responses, one per request, and
    failing once the script is over. *)
Definition scripted (script : list (outcome value)) (rq : request)
    : outcome value * list (outcome value) :=
  match script with
  | [] => (Fails "ConnectionError", [])
  | r :: script' => (r, script')
  end.

(** A numbered-pages endpoint over a fixed table: page [n] of the table,
    the empty array past its end. *)
Definition numbered (table : list (list value)) (_ : unit) (rq : request)
    : outcome value * unit :=
  match req_params rq !! "pageNumber" with
  | Some (VInt n) =>
      if 1 <=? n
      then (Returns (VList (default [] (table !! Z.to_nat (n - 1)))), tt)
      else (Fails "BadRequest", tt)
  | _ => (Fails "BadRequest", tt)
  end.

(** A cursor endpoint's response body. *)
Definition cursor_page (previous next : value) (data : list value) : value :=
  VDict [("previousPageCursor", previous);
         ("nextPageCursor", next);
         ("data", VList data)].

End Server.

(** Concrete iterators and worlds the properties are exercised on. *)
Module Fixture.

Definition fresh_world {Srv : Type} (s : Srv) : world Srv :=
  {| srv := s; log := [] |}.

(** [PageIterator(shared, url="v1/groups/1/users")] *)
Definition members : PageIterator.t :=
  PageIterator.init "v1/groups/1/users" SortOrder.Ascending 10 None None None.

(** The same iterator after [members.next_cursor = "abc"]. *)
Definition members_resumed : PageIterator.t :=
  PageIterator.set_next_cursor (VStr "abc") members.

(** The same iterator once started, with no forward cursor left. *)
Definition members_done : PageIterator.t :=
  PageIterator.set_next_started true members.

(** Two pages, the second one empty and last. *)
Definition script_empty_last : list (outcome value) :=
  [Returns (Server.cursor_page VNone (VStr "abc") [VInt 1; VInt 2; VInt 3]);
   Returns (Server.cursor_page (VStr "xyz") (VStr "") [])].

(** Two pages of items, the second one last. *)
Definition script_two_pages : list (outcome value) :=
  [Returns (Server.cursor_page VNone (VStr "abc") [VInt 1; VInt 2; VInt 3]);
   Returns (Server.cursor_page (VStr "xyz") (VStr "") [VInt 4; VInt 5])].

(** A single page whose forward cursor is JSON [null]. *)
Definition script_null_cursor : list (outcome value) :=
  [Returns (Server.cursor_page VNone VNone [VInt 1])].

(** A single empty page. *)
Definition script_empty_page : list (outcome value) :=
  [Returns (Server.cursor_page VNone VNone [])].

(** A body without the [previousPageCursor] key. *)
Definition script_no_previous : list (outcome value) :=
  [Returns (VDict [("nextPageCursor", VStr "abc"); ("data", VList [VInt 1])])].

(** The iterator after a first page whose forward cursor was "abc". *)
Definition members_at_abc : PageIterator.t :=
  PageIterator.set_next_started true members_resumed.

(** The last, empty page of [script_empty_last]. *)
Definition empty_last_page : value :=
  Server.cursor_page (VStr "xyz") (VStr "") [].

(** [PageNumberIterator(shared, url="v2/chat")] *)
Definition chat : PageNumberIterator.t :=
  PageNumberIterator.init "v2/chat" 10 None None None.

Definition chat_table : list (list value) :=
  [[VInt 1; VInt 2]; [VInt 3]].

(** The same iterator two pages further. *)
Definition chat_at_3 : PageNumberIterator.t :=
  PageNumberIterator.set_page_number 3 chat.

(** The [pageNumber] and the [cursor] each logged request carried. *)
Definition sent {Srv : Type} (key : string) (w : world Srv)
    : list (option value) :=
  map (fun rq => req_params rq !! key) (log w).

End Fixture.


(** ** [async for] over the item view *)

Module Traversal.

Section WithServer.
Context {Srv I : Type}.
Variable iterator_next : M (Srv:=Srv) I value.

(** The loop of [async for item in ...: items.append(item)]: [__anext__]
    until [StopAsyncIteration]; any other exception ends the loop and
    leaves it. *)
Fixpoint items_loop (fuel : nat) (items : list value)
    (o : IteratorItems.t * I) (w : world Srv)
    : option (result (list value) * (IteratorItems.t * I) * world Srv) :=
  match fuel with
  | O => None
  | S fuel' =>
      match IteratorItems.anext iterator_next o w with
      | (Ok item, o', w') => items_loop fuel' (items ++ [item]) o' w'
      | (Raise StopAsyncIteration, o', w') => Some (Ok items, o', w')
      | (Raise e, o', w') => Some (Raise e, o', w')
      end
  end.

(** [[item async for item in iterator]]: [Iterator.__aiter__] hands out
    the item view as it stands, without calling the view's [__aiter__]. *)
Definition items_of_iterator (fuel : nat) (o : IteratorItems.t * I)
    (w : world Srv) :=
  items_loop fuel [] o w.

(** [[item async for item in iterator.items()]]: the loop calls the
    view's own [__aiter__] first. *)
Definition items_of_view (fuel : nat) (o : IteratorItems.t * I)
    (w : world Srv) :=
  match IteratorItems.aiter o w with
  | (Ok _, o', w') => items_loop fuel [] o' w'
  | (Raise e, o', w') => Some (Raise e, o', w')
  end.
End WithServer.

End Traversal.

(** ** [roblox/bases/baseuniverse.py] *)

Module BaseUniverse.

(** [class UniverseLiveStats] *)
Record UniverseLiveStats : Type := {
  total_player_count : value;
  game_count : value;
  player_counts_by_device_type : value
}.

(** [UniverseLiveStats.__init__]: three subscripts, in this order. *)
Definition UniverseLiveStats_init (data : value) : result UniverseLiveStats :=
  match getitem_str data "totalPlayerCount" with
  | Raise e => Raise e
  | Ok total =>
      match getitem_str data "gameCount" with
      | Raise e => Raise e
      | Ok games =>
          match getitem_str data "playerCountsByDeviceType" with
          | Raise e => Raise e
          | Ok by_device =>
              Ok {| total_player_count := total;
                    game_count := games;
                    player_counts_by_device_type := by_device |}
          end
      end
  end.

Section WithServer.
Context {Srv : Type}.
Variable respond : Srv -> request -> outcome value * Srv.

(** [self._shared.url_generator.get_url(subdomain, path)]; the URL
    generator is not part of the files at hand. *)
Variable get_url : string -> string -> string.

(** The constructors [Badge], [GamePass] and [UniverseSocialLink], from
    modules that are not at hand either: from a raw record to an object. *)
Variable Badge GamePass UniverseSocialLink : value -> outcome value.

Definition _universe_badges_handler : Handler :=
  fun _ data => of_outcome (Badge data).

Definition _gamepasses_handler : Handler :=
  fun _ data => of_outcome (GamePass data).

(** A method that awaits one GET without query parameters and goes on
    with the decoded body. *)
Definition get_json {A} (url : string) (k : value -> result A)
    (w : world Srv) : result A * world Srv :=
  match requests_get respond url ∅ w with
  | (Ok body, w') => (k body, w')
  | (Raise e, w') => (Raise e, w')
  end.

Definition get_favorite_count (self_id : Z) :=
  get_json
    (get_url "games" ("v1/games/" +:+ pretty self_id +:+ "/favorites/count"))
    (fun favorite_count_data => getitem_str favorite_count_data "favoritesCount").

Definition is_favorited (self_id : Z) :=
  get_json
    (get_url "games" ("v1/games/" +:+ pretty self_id +:+ "/favorites"))
    (fun is_favorited_data => getitem_str is_favorited_data "isFavorited").

Definition get_badges (self_id : Z) (limit : option Z) : PageIterator.t :=
  PageIterator.init
    (get_url "badges" ("v1/universes/" +:+ pretty self_id +:+ "/badges"))
    SortOrder.Ascending (default 10 limit) None
    (Some _universe_badges_handler) None.

Definition get_live_stats (self_id : Z) :=
  get_json
    (get_url "develop" ("v1/universes/" +:+ pretty self_id +:+ "/live-stats"))
    UniverseLiveStats_init.

Definition get_gamepasses (self_id : Z) (limit : option Z) : PageIterator.t :=
  PageIterator.init
    (get_url "games" ("v1/games/" +:+ pretty self_id +:+ "/game-passes"))
    SortOrder.Ascending (default 10 limit) None
    (Some _gamepasses_handler) None.

Definition get_social_links (self_id : Z) :=
  get_json
    (get_url "games" ("v1/games/" +:+ pretty self_id +:+ "/social-links/list"))
    (fun body =>
       match getitem_str body "data" with
       | Ok links_data =>
           apply_handler
             (Some (fun _ link_data => of_outcome (UniverseSocialLink link_data)))
             ∅ links_data
       | Raise e => Raise e
       end).
End WithServer.

End BaseUniverse.

(** ** [roblox/bases/basegroup.py] *)

Module BaseGroup.

(** [class GroupSettings] *)
Record GroupSettings : Type := {
  is_approval_required : value;
  is_builders_club_required : value;
  are_enemies_allowed : value;
  are_group_funds_visible : value;
  are_group_games_visible : value;
  is_group_name_change_enabled : value;
  can_change_group_name : value
}.

(** [GroupSettings.__init__]: seven subscripts, in this order. *)
Definition GroupSettings_init (data : value) : result GroupSettings :=
  match getitem_str data "isApprovalRequired" with
  | Raise e => Raise e
  | Ok a =>
  match getitem_str data "isBuildersClubRequired" with
  | Raise e => Raise e
  | Ok b =>
  match getitem_str data "areEnemiesAllowed" with
  | Raise e => Raise e
  | Ok c =>
  match getitem_str data "areGroupFundsVisible" with
  | Raise e => Raise e
  | Ok d =>
  match getitem_str data "areGroupGamesVisible" with
  | Raise e => Raise e
  | Ok e' =>
  match getitem_str data "isGroupNameChangeEnabled" with
  | Raise e => Raise e
  | Ok f =>
  match getitem_str data "canChangeGroupName" with
  | Raise e => Raise e
  | Ok g =>
      Ok {| is_approval_required := a;
            is_builders_club_required := b;
            are_enemies_allowed := c;
            are_group_funds_visible := d;
            are_group_games_visible := e';
            is_group_name_change_enabled := f;
            can_change_group_name := g |}
  end end end end end end end.

Section WithServer.
Context {Srv : Type}.
Variable respond : Srv -> request -> outcome value * Srv.

Variable get_url : string -> string -> string.

(** The constructors [Member], [WallPost] and [Role], from modules that
    are not at hand, and [JoinRequest], which rests on [PartialUser] and on
    a date parser that are not at hand either: from the group's id and a
    raw record to an object. *)
Variable Member WallPost JoinRequest Role : Z -> value -> outcome value.

Definition get_settings (self_id : Z) :=
  BaseUniverse.get_json respond
    (get_url "groups" ("v1/groups/" +:+ pretty self_id +:+ "/settings"))
    GroupSettings_init.

Definition get_members (self_id : Z) (sort_order : option SortOrder.t)
    (limit : option Z) : PageIterator.t :=
  PageIterator.init
    (get_url "groups" ("v1/groups/" +:+ pretty self_id +:+ "/users"))
    (default SortOrder.Ascending sort_order) (default 10 limit) None
    (Some (fun _ data => of_outcome (Member self_id data))) None.

Definition get_roles (self_id : Z) :=
  BaseUniverse.get_json respond
    (get_url "groups" ("v1/groups/" +:+ pretty self_id +:+ "/roles"))
    (fun roles_data =>
       match getitem_str roles_data "roles" with
       | Ok roles =>
           apply_handler
             (Some (fun _ role_data => of_outcome (Role self_id role_data)))
             ∅ roles
       | Raise e => Raise e
       end).

Definition get_wall_posts (self_id : Z) (sort_order : option SortOrder.t)
    (limit : option Z) : PageIterator.t :=
  PageIterator.init
    (get_url "groups" ("v2/groups/" +:+ pretty self_id +:+ "/wall/posts"))
    (default SortOrder.Ascending sort_order) (default 10 limit) None
    (Some (fun _ data => of_outcome (WallPost self_id data))) None.

Definition get_join_requests (self_id : Z) (sort_order : option SortOrder.t)
    (limit : option Z) : PageIterator.t :=
  PageIterator.init
    (get_url "groups" ("v1/groups/" +:+ pretty self_id +:+ "/join-requests"))
    (default SortOrder.Ascending sort_order) (default 10 limit) None
    (Some (fun _ data => of_outcome (JoinRequest self_id data))) None.

(** [join_data and JoinRequest(...) or None]: the constructor runs only
    on a truthy body, and a falsy outcome of either side gives [None]. *)
Definition get_join_request (self_id : Z) (user : Z) :=
  BaseUniverse.get_json respond
    (get_url "groups"
       ("v1/groups/" +:+ pretty self_id +:+ "/join-requests/users/"
          +:+ pretty user))
    (fun join_data =>
       if truthy join_data then
         match of_outcome (JoinRequest self_id join_data) with
         | Ok request => if truthy request then Ok request else Ok VNone
         | Raise e => Raise e
         end
       else Ok VNone).
End WithServer.

End BaseGroup.

(** ** Endpoints as the two protocols expect them *)

Module Endpoint.

(** A cursor endpoint's pages: previous cursor, next cursor, data. *)
Definition cursor_entry : Type := value * value * list value.

Definition entry_next (e : cursor_entry) : value := snd (fst e).

Definition entry_data (e : cursor_entry) : list value := snd e.

(** The script a [Server.scripted] server plays to serve those pages. *)
Definition cursor_script (entries : list cursor_entry) : list (outcome value) :=
  map (fun e => Returns (Server.cursor_page (fst (fst e)) (entry_next e)
                           (entry_data e)))
      entries.

(** A server behaves as a numbered-pages endpoint over [table] when,
    whatever its state, it answers a request for page [n >= 1] with page
    [n] of the table, and with the empty array past the table's end. *)
Definition serves_table {Srv : Type}
    (respond : Srv -> request -> outcome value * Srv)
    (table : list (list value)) : Prop :=
  forall a rq n,
    req_params rq !! "pageNumber" = Some (VInt n) -> 1 <= n ->
    fst (respond a rq)
      = Returns (VList (default [] (table !! Z.to_nat (n - 1)))).

(** The value each logged request carried under [key]. *)
Definition sent {Srv : Type} (key : string) (w : world Srv)
    : list (option value) :=
  map (fun rq => req_params rq !! key) (log w).

End Endpoint.

(** More concrete collaborators for the properties to run on. *)
Module Sample.

(** A URL generator in the style of the library's. *)
Definition get_url (subdomain path : string) : string :=
  "https://" +:+ subdomain +:+ ".roblox.com/" +:+ path.

(** A handler that wraps integer records and fails on anything else. *)
Definition as_item : Handler :=
  fun _ data =>
    match data with
    | VInt _ => Ok (VObj "Item" [("id", data)])
    | _ => Raise (Foreign "ValueError")
    end.

(** A handler that raises the module's own [NoMoreItems] on the record 1
    and passes every other record on. *)
Definition stops_on_one : Handler :=
  fun _ data =>
    match data with
    | VInt 1 => Raise (NoMoreItems "stop")
    | _ => Ok data
    end.

(** [PageNumberIterator(shared, url="v2/chat", handler=stops_on_one)] *)
Definition chat_stopping : PageNumberIterator.t :=
  PageNumberIterator.init "v2/chat" 10 None (Some stops_on_one) None.

(** [PageIterator(shared, url="v1/groups/1/users", handler=stops_on_one)] *)
Definition members_stopping : PageIterator.t :=
  PageIterator.init "v1/groups/1/users" SortOrder.Ascending 10 None
    (Some stops_on_one) None.

(** One record per page: 1, then 2. *)
Definition single_table : list (list value) := [[VInt 1]; [VInt 2]].

(** [PageNumberIterator(shared, url="v2/chat", handler=as_item)], two
    pages further. *)
Definition chat_items_at_3 : PageNumberIterator.t :=
  PageNumberIterator.set_page_number 3
    (PageNumberIterator.init "v2/chat" 10 None (Some as_item) None).

(** A constructor that keeps the group's id and the raw record. *)
Definition as_object (cls : string) (group : Z) (data : value) : outcome value :=
  Returns (VObj cls [("group", VInt group); ("data", data)]).

(** The pages of [Fixture.script_two_pages]. *)
Definition first_entry : Endpoint.cursor_entry :=
  (VNone, VStr "abc", [VInt 1; VInt 2; VInt 3]).

Definition last_entry : Endpoint.cursor_entry :=
  (VStr "xyz", VStr "", [VInt 4; VInt 5]).

(** A body of the group roles endpoint. *)
Definition roles_body : value :=
  VDict [("groupId", VInt 7); ("roles", VList [VInt 10; VInt 20])].

(** An item view that has yielded the whole page [[1; 2]]. *)
Definition view_at_end : IteratorItems.t :=
  {| IteratorItems._position := 2;
     IteratorItems._items := VList [VInt 1; VInt 2] |}.

End Sample.

(** * Properties *)

(** ** The cursor iterator, one call at a time *)

Section CursorCalls.
Context {Srv : Type}.
Variable respond : Srv -> request -> outcome value * Srv.

Import PageIterator.

Lemma set_next_started_same (s : t) :
  next_started s = true -> set_next_started true s = s.
Proof. destruct s; simpl; intros ->; reflexivity. Qed.

(** The guard fires: nothing is sent and nothing is assigned. *)
Lemma next_guarded (s : t) (w : world Srv) :
  next_started s && negb (truthy (next_cursor s)) = true ->
  next respond s w = (Raise (NoMoreItems "No more items."), s, w).
Proof.
  intros G. unfold next, bind, self. cbn. rewrite G. reflexivity.
Qed.

(** The guard does not fire: exactly one request goes out, and the
    attributes are assigned in the order of the source. *)
Lemma next_fetches (s : t) (w : world Srv) :
  next_started s && negb (truthy (next_cursor s)) = false ->
  let s1 := set_next_started true s in
  let rq := {| req_url := url s; req_params := params s |} in
  let w' := {| srv := snd (respond (srv w) rq); log := log w ++ [rq] |} in
  next respond s w =
    match fst (respond (srv w) rq) with
    | Fails name => (Raise (Foreign name), s1, w')
    | Returns page_data =>
        match getitem_str page_data "nextPageCursor" with
        | Raise e => (Raise e, s1, w')
        | Ok nc =>
            match getitem_str page_data "previousPageCursor" with
            | Raise e => (Raise e, set_next_cursor nc s1, w')
            | Ok pc =>
                let s3 := set_previous_cursor pc (set_next_cursor nc s1) in
                match getitem_str page_data "data" with
                | Raise e => (Raise e, s3, w')
                | Ok data =>
                    (apply_handler (handler s) (handler_kwargs s) data, s3, w')
                end
            end
        end
    end.
Proof.
  intros G. unfold next, bind, self. cbn. rewrite G.
  assert (E : (if negb (next_started s)
               then assign (Srv:=Srv) (set_next_started true)
               else ret tt) s w = (Ok tt, set_next_started true s, w)).
  { destruct (next_started s) eqn:St; cbn; unfold assign, ret.
    - rewrite set_next_started_same; auto.
    - reflexivity. }
  rewrite E. cbn. unfold io, requests_get. cbn.
  destruct (respond (srv w) _) as [[page_data|name] srv']; cbn; [|reflexivity].
  unfold lift, assign.
  destruct (getitem_str page_data "nextPageCursor"); cbn; [|reflexivity].
  destruct (getitem_str page_data "previousPageCursor"); cbn; [|reflexivity].
  destruct (getitem_str page_data "data"); cbn; reflexivity.
Qed.

(** One call of the cursor iterator, summed up. *)
Lemma cursor_next_step (s s' : PageIterator.t) (w w' : world Srv)
    (r : result value) :
  PageIterator.next respond s w = (r, s', w') ->
  PageIterator.url s' = PageIterator.url s /\
  PageIterator.sort_order s' = PageIterator.sort_order s /\
  PageIterator.limit s' = PageIterator.limit s /\
  PageIterator.extra_parameters s' = PageIterator.extra_parameters s /\
  PageIterator.handler s' = PageIterator.handler s /\
  PageIterator.handler_kwargs s' = PageIterator.handler_kwargs s /\
  PageIterator.iterator_position s' = PageIterator.iterator_position s /\
  PageIterator.iterator_items s' = PageIterator.iterator_items s /\
  (PageIterator.next_started s = true -> PageIterator.next_started s' = true) /\
  (PageIterator.next_started s
     && negb (truthy (PageIterator.next_cursor s)) = true /\ w' = w \/
   PageIterator.next_started s
     && negb (truthy (PageIterator.next_cursor s)) = false /\
   PageIterator.next_started s' = true /\
   srv w' = snd (respond (srv w)
                   {| req_url := PageIterator.url s;
                      req_params := PageIterator.params s |}) /\
   log w' = log w ++ [{| req_url := PageIterator.url s;
                         req_params := PageIterator.params s |}]).
Proof.
  destruct (PageIterator.next_started s
            && negb (truthy (PageIterator.next_cursor s))) eqn:G.
  - rewrite next_guarded by exact G. intros [= <- <- <-].
    pose proof (proj1 (andb_prop _ _ G)). tauto.
  - rewrite next_fetches by exact G. cbn zeta.
    destruct (fst (respond _ _)) as [page_data|name];
      [|intros [= <- <- <-]; cbn; tauto].
    destruct (getitem_str page_data "nextPageCursor");
      [|intros [= <- <- <-]; cbn; tauto].
    destruct (getitem_str page_data "previousPageCursor");
      [|intros [= <- <- <-]; cbn; tauto].
    destruct (getitem_str page_data "data");
      intros [= <- <- <-]; cbn; tauto.
Qed.

End CursorCalls.

(** ** What the primitives can raise *)

Lemma getitem_str_raises (v : value) (k : string) (e : exn) :
  getitem_str v k = Raise e -> e = TypeError \/ e = KeyError (VStr k).
Proof.
  destruct v as [| | | |? |d|]; cbn; try (intros [= <-]; auto; fail).
  destruct (assoc k d); intros [= <-]; auto.
Qed.

Lemma len_raises (v : value) (e : exn) : len v = Raise e -> e = TypeError.
Proof. destruct v; cbn; intros [= <-]; reflexivity. Qed.

Lemma iter_raises (v : value) (e : exn) : iter v = Raise e -> e = TypeError.
Proof. destruct v; cbn; intros [= <-]; reflexivity. Qed.

Lemma mapM_raises {A B} (f : A -> result B) (l : list A) (e : exn) :
  mapM f l = Raise e -> exists x, f x = Raise e.
Proof.
  induction l as [|x l IH]; cbn; [discriminate|].
  destruct (f x) as [y|e'] eqn:E.
  - destruct (mapM f l); [discriminate|]. intros [= <-]. apply IH. reflexivity.
  - intros [= <-]. eauto.
Qed.

(** [apply_handler] fails either because the data cannot be iterated or
    because the handler raised on a record. *)
Lemma apply_handler_raises h kw (data : value) (e : exn) :
  apply_handler h kw data = Raise e ->
  e = TypeError \/ Caller.raised_by_handler h kw e.
Proof.
  unfold apply_handler. destruct h as [h|]; [|discriminate].
  destruct (iter data) as [raw|e'] eqn:It.
  - destruct (mapM _ raw) eqn:E; [discriminate|]. intros [= <-].
    apply mapM_raises in E as [item E]. right. exists h, item. auto.
  - intros [= <-]. left. eapply iter_raises, It.
Qed.

Lemma apply_handler_empty h kw : apply_handler h kw (VList []) = Ok (VList []).
Proof. destruct h; reflexivity. Qed.

(** A call that signals the failure [e] and leaves everything as it was
    does so again, as often as it is repeated. *)
Lemma calls_stuck {Srv I : Type} (next : M (Srv:=Srv) I value) (e : exn)
    (it : I) (w : world Srv) (n : nat) :
  next it w = (Raise e, it, w) ->
  Caller.calls next n it w = (replicate n (Raise e), it, w).
Proof.
  intros E. induction n as [|n IH]; cbn; [reflexivity|].
  rewrite E, IH. reflexivity.
Qed.

Section CursorFacts.
Context {Srv : Type}.
Variable respond : Srv -> request -> outcome value * Srv.

Import PageIterator.

(** [NoMoreItems] leaves the cursor iterator either from its guard, with
    nothing sent and nothing assigned, or from the handler. *)
Lemma next_exhausted_inv (s s' : t) (w w' : world Srv) (msg : string) :
  next respond s w = (Raise (NoMoreItems msg), s', w') ->
  (next_started s = true /\ truthy (next_cursor s) = false /\
   s' = s /\ w' = w) \/
  (next_started s && negb (truthy (next_cursor s)) = false /\
   Caller.raised_by_handler (handler s) (handler_kwargs s) (NoMoreItems msg)).
Proof.
  destruct (next_started s && negb (truthy (next_cursor s))) eqn:G.
  - rewrite next_guarded by exact G. intros [= _ <- <-]. left.
    apply andb_prop in G as [? G]. apply negb_true_iff in G. auto.
  - rewrite next_fetches by exact G. cbn zeta. intros E.
    right. split; [reflexivity|]. revert E.
    destruct (fst (respond _ _)) as [page_data|name]; [|discriminate].
    destruct (getitem_str page_data "nextPageCursor") eqn:E1;
      [|apply getitem_str_raises in E1 as [->| ->]; discriminate].
    destruct (getitem_str page_data "previousPageCursor") eqn:E2;
      [|apply getitem_str_raises in E2 as [->| ->]; discriminate].
    destruct (getitem_str page_data "data") eqn:E3;
      [|apply getitem_str_raises in E3 as [->| ->]; discriminate].
    destruct (apply_handler _ _ _) eqn:E4; [discriminate|].
    intros [= -> _ _].
    apply apply_handler_raises in E4 as [E4|E4]; [discriminate|exact E4].
Qed.

(** With a handler that never raises [NoMoreItems], only the guard does. *)
Lemma next_exhausted_guard (s s' : t) (w w' : world Srv) (msg : string) :
  Caller.handler_never is_NoMoreItems (handler s) ->
  next respond s w = (Raise (NoMoreItems msg), s', w') ->
  next_started s = true /\ truthy (next_cursor s) = false /\ s' = s /\ w' = w.
Proof.
  intros Q E. apply next_exhausted_inv in E as [E|[_ (f & item & Hf & Hr)]];
    [exact E|].
  apply (Q f _ item _ Hf) in Hr. discriminate.
Qed.

Lemma params_cursor (s : t) :
  extra_parameters s !! "cursor" = None ->
  params s !! "cursor" = Some (next_cursor s).
Proof.
  intros E. unfold params. rewrite lookup_union_r by exact E.
  apply lookup_insert_eq.
Qed.

End CursorFacts.

(** ** The cursor protocol *)

Section CursorProtocol.
Context {Srv : Type}.
Variable respond : Srv -> request -> outcome value * Srv.

Import PageIterator.

(** C1: a cursor iterator that has started and holds an empty (falsy)
    [next_cursor] raises [NoMoreItems] from [next()] with no request sent
    and no attribute changed, and so does every later call: [n] calls in a
    row all raise it and leave the iterator and the world as they were. *)
Theorem started_without_cursor_is_exhausted (s : t) (w : world Srv) (n : nat) :
  next_started s = true ->
  truthy (next_cursor s) = false ->
  next respond s w = (Raise (NoMoreItems "No more items."), s, w) /\
  Caller.calls (next respond) n s w =
    (replicate n (Raise (NoMoreItems "No more items.")), s, w).
Proof.
  intros St Cur.
  assert (E : next respond s w = (Raise (NoMoreItems "No more items."), s, w)).
  { apply next_guarded. rewrite St, Cur. reflexivity. }
  split; [exact E|]. apply calls_stuck, E.
Qed.

(** C5, amended: the first call of a cursor iterator ([next_started] still
    false) always sends one request, whatever [next_cursor] holds: the
    empty-cursor guard does not apply to it.  The [cursor] parameter it
    sends is the value held in [next_cursor] at that moment, unless
    [extra_parameters] has a [cursor] key of its own, whose value is sent
    instead.  The call leaves [next_started] true, so that the empty-cursor
    rule applies from the next call on; [NoMoreItems] leaves this first
    call only if the handler raises it on a record. *)
Theorem first_call_sends_held_cursor (s : t) (w : world Srv) :
  next_started s = false ->
  exists r s' w' rq,
    next respond s w = (r, s', w') /\
    log w' = log w ++ [rq] /\
    req_url rq = url s /\
    req_params rq !! "cursor" =
      match extra_parameters s !! "cursor" with
      | Some v => Some v
      | None => Some (next_cursor s)
      end /\
    next_started s' = true /\
    (forall msg,
        r = Raise (NoMoreItems msg) ->
        Caller.raised_by_handler (handler s) (handler_kwargs s)
          (NoMoreItems msg)).
Proof.
  intros St.
  destruct (next respond s w) as [[r s'] w'] eqn:E.
  exists r, s', w', {| req_url := url s; req_params := params s |}.
  split; [reflexivity|].
  pose proof (cursor_next_step _ _ _ _ _ _ E)
    as (_ & _ & _ & _ & _ & _ & _ & _ & _ & [[G _]|(_ & St' & _ & Lg)]);
    [rewrite St in G; discriminate G|].
  split; [exact Lg|]. split; [reflexivity|]. split; [|split; [exact St'|]].
  - cbn [req_params]. unfold params.
    destruct (extra_parameters s !! "cursor") as [v|] eqn:Ex.
    + apply lookup_union_Some_l, Ex.
    + rewrite lookup_union_r by exact Ex. apply lookup_insert_eq.
  - intros msg ->.
    apply next_exhausted_inv in E as [(St'' & _)|[_ Hh]]; [congruence|exact Hh].
Qed.

(** C6, amended: when the fetch of a cursor iterator brings a body whose
    [data] array is empty, [next()] returns that empty page, the request
    having been sent and the cursors of the body stored; and whenever
    [next()] raises [NoMoreItems], either the guard raised it (the iterator
    had started, held no cursor, and nothing was sent or assigned) or the
    handler raised it on a record: never an empty [data] array. *)
Theorem empty_page_is_returned (s : t) (w : world Srv) (body nc pc : value) :
  next_started s && negb (truthy (next_cursor s)) = false ->
  fst (respond (srv w) {| req_url := url s; req_params := params s |})
    = Returns body ->
  getitem_str body "nextPageCursor" = Ok nc ->
  getitem_str body "previousPageCursor" = Ok pc ->
  getitem_str body "data" = Ok (VList []) ->
  next respond s w =
    (Ok (VList []),
     set_previous_cursor pc (set_next_cursor nc (set_next_started true s)),
     {| srv := snd (respond (srv w)
                      {| req_url := url s; req_params := params s |});
        log := log w ++ [{| req_url := url s; req_params := params s |}] |}) /\
  (forall s0 w0 msg s1 w1,
      next respond s0 w0 = (Raise (NoMoreItems msg), s1, w1) ->
      (next_started s0 = true /\ truthy (next_cursor s0) = false /\
       s1 = s0 /\ w1 = w0) \/
      Caller.raised_by_handler (handler s0) (handler_kwargs s0)
        (NoMoreItems msg)).
Proof.
  intros G R E1 E2 E3. split.
  - rewrite next_fetches by exact G. cbn zeta.
    rewrite R, E1, E2, E3, apply_handler_empty. reflexivity.
  - intros s0 w0 msg s1 w1 E.
    apply next_exhausted_inv in E as [E|[_ E]]; auto.
Qed.

(** C9, amended: [next()] reads [nextPageCursor] and [previousPageCursor]
    by subscripting the response body.  When both keys are present their
    values, whatever they are, are stored into [next_cursor] and
    [previous_cursor] and the call goes on to [data]; a body that lacks one
    of them aborts the call with [KeyError] at that key, [next_cursor]
    having been overwritten already when it is the second key that is
    missing. *)
Theorem cursors_are_subscripted (s : t) (w : world Srv)
    (d : list (string * value)) :
  next_started s && negb (truthy (next_cursor s)) = false ->
  fst (respond (srv w) {| req_url := url s; req_params := params s |})
    = Returns (VDict d) ->
  exists r s' w',
    next respond s w = (r, s', w') /\
    match assoc "nextPageCursor" d, assoc "previousPageCursor" d with
    | Some nc, Some pc =>
        next_cursor s' = nc /\ previous_cursor s' = pc /\
        r = match assoc "data" d with
            | Some data => apply_handler (handler s) (handler_kwargs s) data
            | None => Raise (KeyError (VStr "data"))
            end
    | Some nc, None =>
        r = Raise (KeyError (VStr "previousPageCursor")) /\
        next_cursor s' = nc /\ previous_cursor s' = previous_cursor s
    | None, _ =>
        r = Raise (KeyError (VStr "nextPageCursor")) /\
        next_cursor s' = next_cursor s /\
        previous_cursor s' = previous_cursor s
    end.
Proof.
  intros G R. rewrite next_fetches by exact G. cbn zeta. rewrite R. cbn.
  destruct (assoc "nextPageCursor" d) as [nc|]; [|eauto 10].
  destruct (assoc "previousPageCursor" d) as [pc|]; [|eauto 10].
  destruct (assoc "data" d) as [data|]; eauto 10.
Qed.

(** C10: [next_cursor] receives the raw JSON value of [nextPageCursor], and
    the guard of the following call tests its truth value: a falsy value,
    JSON [null] just like the empty string, makes that call raise
    [NoMoreItems] with no request sent; after a truthy one the following
    call sends its request, and raises no [NoMoreItems] unless the handler
    does. *)
Theorem guard_tests_falsiness (s : t) (w : world Srv)
    (d : list (string * value)) (c pc : value) :
  next_started s && negb (truthy (next_cursor s)) = false ->
  fst (respond (srv w) {| req_url := url s; req_params := params s |})
    = Returns (VDict d) ->
  assoc "nextPageCursor" d = Some c ->
  assoc "previousPageCursor" d = Some pc ->
  truthy VNone = false /\ truthy (VStr "") = false /\
  exists r s' w',
    next respond s w = (r, s', w') /\
    next_cursor s' = c /\
    (truthy c = false ->
       next respond s' w' = (Raise (NoMoreItems "No more items."), s', w')) /\
    (truthy c = true ->
       (exists rq, log (snd (next respond s' w')) = log w' ++ [rq]) /\
       (Caller.handler_never is_NoMoreItems (handler s) ->
        ~ Caller.exhausted (fst (fst (next respond s' w'))))).
Proof.
  intros G R E1 E2. split; [reflexivity|]. split; [reflexivity|].
  rewrite next_fetches by exact G. cbn zeta. rewrite R. cbn. rewrite E1, E2.
  assert (K : forall (r : result value) (s' : t) (w' : world Srv),
    next_cursor s' = c -> next_started s' = true -> handler s' = handler s ->
    exists r0 s0 w0, (r, s', w') = (r0, s0, w0) /\ next_cursor s0 = c /\
      (truthy c = false ->
         next respond s0 w0 = (Raise (NoMoreItems "No more items."), s0, w0)) /\
      (truthy c = true ->
         (exists rq, log (snd (next respond s0 w0)) = log w0 ++ [rq]) /\
         (Caller.handler_never is_NoMoreItems (handler s) ->
          ~ Caller.exhausted (fst (fst (next respond s0 w0)))))).
  { intros r s' w' Hc Hs Hh. exists r, s', w'.
    split; [reflexivity|]. split; [exact Hc|]. split.
    - intros F. apply next_guarded. rewrite Hs, Hc, F. reflexivity.
    - intros T.
      assert (G' : next_started s' && negb (truthy (next_cursor s')) = false)
        by (rewrite Hs, Hc, T; reflexivity).
      destruct (next respond s' w') as [[r1 s1] w1] eqn:E. cbn [fst snd]. split.
      + pose proof (cursor_next_step _ _ _ _ _ _ E)
          as (_ & _ & _ & _ & _ & _ & _ & _ & _ & [[G0 _]|(_ & _ & _ & Lg)]);
          [congruence|eauto].
      + intros Q [msg ->]. rewrite <- Hh in Q.
        apply (next_exhausted_guard _ _ _ _ _ _ Q) in E as (_ & F & _).
        congruence. }
  destruct (assoc "data" d); apply K; reflexivity.
Qed.

End CursorProtocol.

(** ** The page-number iterator, one call at a time *)

Section NumberedCalls.
Context {Srv : Type}.
Variable respond : Srv -> request -> outcome value * Srv.

Import PageNumberIterator.

(** Every call sends exactly one request; [page_number] moves only after
    the length test has passed. *)
Lemma next_numbered (s : t) (w : world Srv) :
  let rq := {| req_url := url s; req_params := params s |} in
  let w' := {| srv := snd (respond (srv w) rq); log := log w ++ [rq] |} in
  next respond s w =
    match fst (respond (srv w) rq) with
    | Fails name => (Raise (Foreign name), s, w')
    | Returns data =>
        match len data with
        | Raise e => (Raise e, s, w')
        | Ok n =>
            if n =? 0 then (Raise (NoMoreItems "No more items."), s, w')
            else (apply_handler (handler s) (handler_kwargs s) data,
                  set_page_number (page_number s + 1) s, w')
        end
    end.
Proof.
  unfold next, bind, self, io, requests_get. cbn.
  destruct (respond (srv w) _) as [[data|name] srv']; cbn; [|reflexivity].
  unfold lift. destruct (len data) as [n|e]; cbn; [|reflexivity].
  destruct (n =? 0); reflexivity.
Qed.

Lemma params_pageNumber (s : t) :
  extra_parameters s !! "pageNumber" = None ->
  params s !! "pageNumber" = Some (VInt (page_number s)).
Proof.
  intros E. unfold params. rewrite lookup_union_r by exact E.
  apply lookup_insert_eq.
Qed.

(** [NoMoreItems] leaves the page-number iterator either because the body
    fetched had length 0, no attribute being assigned, or from the
    handler. *)
Lemma next_numbered_exhausted_inv (s s' : t) (w w' : world Srv) (msg : string) :
  next respond s w = (Raise (NoMoreItems msg), s', w') ->
  (s' = s /\
   exists data,
     fst (respond (srv w) {| req_url := url s; req_params := params s |})
       = Returns data /\ len data = Ok 0) \/
  Caller.raised_by_handler (handler s) (handler_kwargs s) (NoMoreItems msg).
Proof.
  rewrite next_numbered. cbn zeta.
  destruct (fst (respond _ _)) as [data|name]; [|discriminate].
  destruct (len data) as [n|e] eqn:L;
    [|apply len_raises in L as ->; discriminate].
  destruct (n =? 0) eqn:Z0.
  - intros [= _ <- _]. apply Z.eqb_eq in Z0 as ->. eauto.
  - destruct (apply_handler _ _ _) eqn:A; [discriminate|].
    intros [= -> _ _].
    apply apply_handler_raises in A as [A|A]; [discriminate|auto].
Qed.

Lemma next_numbered_exhausted_empty (s s' : t) (w w' : world Srv)
    (msg : string) :
  Caller.handler_never is_NoMoreItems (handler s) ->
  next respond s w = (Raise (NoMoreItems msg), s', w') ->
  s' = s /\
  exists data,
    fst (respond (srv w) {| req_url := url s; req_params := params s |})
      = Returns data /\ len data = Ok 0.
Proof.
  intros Q E.
  apply next_numbered_exhausted_inv in E as [E|(f & item & Hf & Hr)];
    [exact E|].
  apply (Q f _ item _ Hf) in Hr. discriminate.
Qed.

(** After [k] calls that each returned a page, [page_number] has grown by
    [k] and nothing else of the iterator has changed. *)
Lemma calls_returned_page_number (k : nat) :
  forall (s s' : t) (w w' : world Srv) (rs : list (result value)),
    Caller.calls (next respond) k s w = (rs, s', w') ->
    Forall Caller.returned rs ->
    s' = set_page_number (page_number s + Z.of_nat k) s.
Proof.
  induction k as [|k IH]; intros s s' w w' rs.
  - cbn. intros [= _ <- _] _. destruct s; unfold set_page_number; cbn.
    f_equal. lia.
  - cbn [Caller.calls].
    destruct (next respond s w) as [[r s1] w1] eqn:E.
    destruct (Caller.calls (next respond) k s1 w1) as [[rs' s2] w2] eqn:E'.
    intros [= <- <- <-] F. inversion F as [|? ? [page ->] F']; subst.
    apply IH in E'; [|exact F']. subst s2.
    rewrite next_numbered in E. cbn zeta in E.
    destruct (fst (respond _ _)) as [data|name]; [|discriminate].
    destruct (len data) as [n|e]; [|discriminate].
    destruct (n =? 0); [discriminate|]. injection E as _ <- _.
    destruct s; unfold set_page_number; cbn. f_equal. lia.
Qed.

End NumberedCalls.

(** ** Stable exhaustion and the page-number protocol *)

Section Exhaustion.
Context {Srv : Type}.
Variable respond : Srv -> request -> outcome value * Srv.

(** Against a server that answers identical requests identically, a
    page-number iterator that found an empty body finds it again. *)
Lemma numbered_calls_exhausted (s : PageNumberIterator.t) (data : value) :
  (forall a, fst (respond a {| req_url := PageNumberIterator.url s;
                               req_params := PageNumberIterator.params s |})
             = Returns data) ->
  len data = Ok 0 ->
  forall (n : nat) (w : world Srv),
    Forall Caller.exhausted
      (fst (fst (Caller.calls (PageNumberIterator.next respond) n s w))) /\
    snd (fst (Caller.calls (PageNumberIterator.next respond) n s w)) = s.
Proof.
  intros R L.
  assert (E : forall w, exists w',
    PageNumberIterator.next respond s w
      = (Raise (NoMoreItems "No more items."), s, w')).
  { intros w. rewrite next_numbered. cbn zeta. rewrite R, L. cbn. eauto. }
  induction n as [|n IH]; intros w; cbn [Caller.calls]; [cbn; auto|].
  destruct (E w) as [w1 ->]. specialize (IH w1).
  destruct (Caller.calls _ n s w1) as [[rs s2] w2]. cbn in *.
  destruct IH as [F ->]. split; [|reflexivity].
  constructor; [eexists; reflexivity|exact F].
Qed.

(** C2, amended: once [next()] has raised [NoMoreItems], any number of
    further calls raise it again and none returns a page, for the cursor
    iterator and for the page-number iterator alike, provided the server
    answers identical requests identically and the handler, if one is set,
    does not itself raise [NoMoreItems]. *)
Theorem exhaustion_is_stable (n : nat) :
  Server.stationary respond ->
  (forall (s s' : PageIterator.t) (w w' : world Srv) msg,
      Caller.handler_never is_NoMoreItems (PageIterator.handler s) ->
      PageIterator.next respond s w = (Raise (NoMoreItems msg), s', w') ->
      Forall Caller.exhausted
        (fst (fst (Caller.calls (PageIterator.next respond) n s' w')))) /\
  (forall (s s' : PageNumberIterator.t) (w w' : world Srv) msg,
      Caller.handler_never is_NoMoreItems (PageNumberIterator.handler s) ->
      PageNumberIterator.next respond s w = (Raise (NoMoreItems msg), s', w') ->
      Forall Caller.exhausted
        (fst (fst (Caller.calls (PageNumberIterator.next respond) n s' w')))).
Proof.
  intros St. split.
  - intros s s' w w' msg Q E.
    apply (next_exhausted_guard _ _ _ _ _ _ Q) in E as (Hs & Hc & -> & ->).
    rewrite (calls_stuck _ (NoMoreItems "No more items.")).
    + cbn. apply Forall_forall. intros r Hr.
      apply elem_of_replicate in Hr as [-> _]. eexists; reflexivity.
    + apply next_guarded. rewrite Hs, Hc. reflexivity.
  - intros s s' w w' msg Q E.
    apply (next_numbered_exhausted_empty _ _ _ _ _ _ Q) in E
      as (-> & data & R & L).
    apply (numbered_calls_exhausted s data); [|exact L].
    intros a. rewrite <- R. apply St.
Qed.

Import PageNumberIterator.

(** C4, amended: [page_number] starts at 1; every call sends one request,
    whose [pageNumber] is the current [page_number] (when
    [extra_parameters] has no [pageNumber] key of its own); a non-empty
    body moves [page_number] up by exactly 1 and an empty one raises
    [NoMoreItems] with the iterator unchanged; hence the request that
    follows [k] calls which each returned a page carries [k + 1]. *)
Theorem page_number_protocol :
  (forall u size extra h kw, page_number (init u size extra h kw) = 1) /\
  (forall (s : t) (w : world Srv),
      extra_parameters s !! "pageNumber" = None ->
      exists r s' w' rq,
        next respond s w = (r, s', w') /\ log w' = log w ++ [rq] /\
        req_params rq !! "pageNumber" = Some (VInt (page_number s))) /\
  (forall (s : t) (w : world Srv) data n,
      fst (respond (srv w) {| req_url := url s; req_params := params s |})
        = Returns data ->
      len data = Ok n -> n <> 0 ->
      exists r w',
        next respond s w = (r, set_page_number (page_number s + 1) s, w')) /\
  (forall (s : t) (w : world Srv) data,
      fst (respond (srv w) {| req_url := url s; req_params := params s |})
        = Returns data ->
      len data = Ok 0 ->
      exists w', next respond s w = (Raise (NoMoreItems "No more items."), s, w')) /\
  (forall u size extra h kw (k : nat) (w w' : world Srv) rs s',
      default ∅ extra !! "pageNumber" = None ->
      Caller.calls (next respond) k (init u size extra h kw) w = (rs, s', w') ->
      Forall Caller.returned rs ->
      page_number s' = 1 + Z.of_nat k /\
      exists r s'' w'' rq,
        next respond s' w' = (r, s'', w'') /\ log w'' = log w' ++ [rq] /\
        req_params rq !! "pageNumber" = Some (VInt (Z.of_nat (S k)))).
Proof.
  assert (Sends : forall (s : t) (w : world Srv),
      extra_parameters s !! "pageNumber" = None ->
      exists r s' w' rq,
        next respond s w = (r, s', w') /\ log w' = log w ++ [rq] /\
        req_params rq !! "pageNumber" = Some (VInt (page_number s))).
  { intros s w Ex. rewrite next_numbered. cbn zeta.
    pose proof (params_pageNumber s Ex) as P.
    destruct (fst (respond _ _)) as [data|name]; [|eauto 10].
    destruct (len data) as [n|e]; [|eauto 10].
    destruct (n =? 0); eauto 10. }
  split; [reflexivity|]. split; [exact Sends|]. split; [|split].
  - intros s w data n R L N. rewrite next_numbered. cbn zeta. rewrite R, L.
    apply Z.eqb_neq in N. rewrite N. eauto.
  - intros s w data R L. rewrite next_numbered. cbn zeta. rewrite R, L. cbn. eauto.
  - intros u size extra h kw k w w' rs s' Ex C F.
    apply calls_returned_page_number in C; [|exact F]. subst s'. cbn.
    split; [reflexivity|].
    destruct (Sends (set_page_number (1 + Z.of_nat k) (init u size extra h kw)) w' Ex)
      as (r & s'' & w'' & rq & E & Lg & P).
    exists r, s'', w'', rq. split; [exact E|]. split; [exact Lg|].
    rewrite P. cbn. do 2 f_equal. lia.
Qed.

End Exhaustion.

(** ** The views and [flatten], over any iterator *)

Lemma concat_pages_app (a b : list value) :
  Caller.concat_pages (a ++ b) =
    match Caller.concat_pages a with
    | Ok xs =>
        match Caller.concat_pages b with
        | Ok ys => Ok (xs ++ ys)
        | Raise e => Raise e
        end
    | Raise e => Raise e
    end.
Proof.
  induction a as [|page a IH]; cbn.
  - destruct (Caller.concat_pages b); reflexivity.
  - destruct (iter page) as [xs|e]; [|reflexivity]. rewrite IH.
    destruct (Caller.concat_pages a) as [xs'|e]; [|reflexivity].
    destruct (Caller.concat_pages b) as [ys|e]; [|reflexivity].
    rewrite app_assoc. reflexivity.
Qed.

Lemma concat_pages_snoc (pages : list value) (page : value) :
  Caller.concat_pages (pages ++ [page]) =
    match Caller.concat_pages pages with
    | Ok xs =>
        match iter page with
        | Ok ys => Ok (xs ++ ys)
        | Raise e => Raise e
        end
    | Raise e => Raise e
    end.
Proof.
  rewrite concat_pages_app. cbn.
  destruct (Caller.concat_pages pages); [|reflexivity].
  destruct (iter page); [|reflexivity]. rewrite app_nil_r. reflexivity.
Qed.

Section Views.
Context {Srv I : Type}.
Variable next : M (Srv:=Srv) I value.

(** The pages collected so far stay at the front of what is collected. *)
Lemma collect_loop_prefix (fuel : nat) :
  forall pages it w ps it' w',
    IteratorPages.collect_loop next fuel pages it w = Some (Ok ps, it', w') ->
    exists rest, ps = pages ++ rest.
Proof.
  induction fuel as [|fuel IH]; intros pages it w ps it' w'; cbn; [discriminate|].
  unfold IteratorPages.anext, try_except.
  destruct (next it w) as [[[page|e] it1] w1].
  - intros E. apply IH in E as [rest ->]. rewrite <- app_assoc. eauto.
  - destruct (is_NoMoreItems e); cbn.
    + intros [= <- _ _]. exists []. rewrite app_nil_r. reflexivity.
    + destruct e; discriminate || (intros [= <- _ _]; exists []; rewrite app_nil_r; reflexivity).
Qed.

(** What [flatten] returns, the page view yields: run side by side with
    the same fuel, whatever [next()] may raise. *)
Lemma flatten_loop_gives_pages (fuel : nat) :
  forall items pages it w l it' w',
    Caller.concat_pages pages = Ok items ->
    Iterator.flatten_loop next fuel items it w = Some (Ok l, it', w') ->
    exists ps,
      IteratorPages.collect_loop next fuel pages it w = Some (Ok ps, it', w') /\
      Caller.concat_pages ps = Ok l.
Proof.
  induction fuel as [|fuel IH]; intros items pages it w l it' w' Acc; cbn;
    [discriminate|].
  unfold Iterator.flatten_step, IteratorPages.anext, try_except, bind, lift, ret.
  destruct (next it w) as [[[page|e] it1] w1].
  - destruct (iter page) as [more|e] eqn:It.
    + apply IH. rewrite concat_pages_snoc, Acc, It. reflexivity.
    + pose proof (iter_raises _ _ It) as ->. cbn. discriminate.
  - destruct e; cbn; try discriminate.
    intros [= <- <- <-]. eauto.
Qed.

(** Fuel only bounds the loop: a run that ended ends the same way with more. *)
Lemma flatten_loop_more_fuel (fuel extra : nat) :
  forall items it w r,
    Iterator.flatten_loop next fuel items it w = Some r ->
    Iterator.flatten_loop next (fuel + extra) items it w = Some r.
Proof.
  induction fuel as [|fuel IH]; intros items it w r; cbn; [discriminate|].
  destruct (Iterator.flatten_step next items it w) as [[[[items'|]|e] it1] w1];
    auto.
Qed.

Lemma flatten_gives_pages (fuel : nat) (it : I) (w : world Srv) l it' w' :
  Iterator.flatten next fuel it w = Some (Ok l, it', w') ->
  exists ps,
    IteratorPages.collect next fuel it w = Some (Ok ps, it', w') /\
    Caller.concat_pages ps = Ok l.
Proof.
  unfold Iterator.flatten, IteratorPages.collect, IteratorPages.aiter, ret.
  apply flatten_loop_gives_pages. reflexivity.
Qed.

(** The converse needs [next()] not to raise [StopAsyncIteration] itself,
    which ends the page view but not [flatten]; it is asked of the states
    the run goes through, singled out by a property [next()] keeps. *)
Variable reached : I -> Prop.

Hypothesis reached_kept :
  forall it w r it' w', reached it -> next it w = (r, it', w') -> reached it'.

Hypothesis reached_never_stops :
  forall it w, reached it -> fst (fst (next it w)) <> Raise StopAsyncIteration.

Lemma pages_give_flatten_loop (fuel : nat) :
  forall items pages it w l it' w',
    reached it ->
    Caller.concat_pages pages = Ok items ->
    (exists ps,
        IteratorPages.collect_loop next fuel pages it w = Some (Ok ps, it', w') /\
        Caller.concat_pages ps = Ok l) ->
    Iterator.flatten_loop next fuel items it w = Some (Ok l, it', w').
Proof.
  induction fuel as [|fuel IH]; intros items pages it w l it' w' R Acc; cbn.
  { intros (ps & E & _). discriminate. }
  unfold Iterator.flatten_step, IteratorPages.anext, try_except, bind, lift, ret.
  pose proof (reached_never_stops it w R) as NS.
  pose proof (reached_kept it w) as RK.
  destruct (next it w) as [[[page|e] it1] w1]; cbn in NS.
  - destruct (iter page) as [more|e] eqn:It.
    + apply IH; [eapply RK; eauto|].
      rewrite concat_pages_snoc, Acc, It. reflexivity.
    + pose proof (iter_raises _ _ It) as ->. cbn.
      intros (ps & E & C).
      apply collect_loop_prefix in E as [rest ->].
      rewrite concat_pages_app, concat_pages_snoc, Acc, It in C. discriminate.
  - destruct e; cbn; try (intros (ps & E & _); discriminate).
    + intros (ps & [= <- <- <-] & C). rewrite Acc in C.
      injection C as <-. reflexivity.
    + congruence.
Qed.

Lemma pages_give_flatten (fuel : nat) (it : I) (w : world Srv) l it' w' :
  reached it ->
  (exists ps,
      IteratorPages.collect next fuel it w = Some (Ok ps, it', w') /\
      Caller.concat_pages ps = Ok l) ->
  Iterator.flatten next fuel it w = Some (Ok l, it', w').
Proof.
  unfold Iterator.flatten, IteratorPages.collect, IteratorPages.aiter, ret.
  intros R. apply pages_give_flatten_loop; [exact R|reflexivity].
Qed.

End Views.

(** ** What the two concrete iterators can raise *)

Section Raises.
Context {Srv : Type}.
Variable respond : Srv -> request -> outcome value * Srv.

Lemma cursor_next_raises (s : PageIterator.t) (w : world Srv) (e : exn) :
  fst (fst (PageIterator.next respond s w)) = Raise e ->
  Caller.own_failure e \/
  Caller.raised_by_handler (PageIterator.handler s)
    (PageIterator.handler_kwargs s) e.
Proof.
  unfold Caller.own_failure.
  destruct (PageIterator.next_started s
            && negb (truthy (PageIterator.next_cursor s))) eqn:G.
  - rewrite next_guarded by exact G. cbn. intros [= <-]. auto.
  - rewrite next_fetches by exact G. cbn zeta.
    destruct (fst (respond _ _)) as [page_data|name];
      [|cbn; intros [= <-]; left; eauto].
    destruct (getitem_str page_data "nextPageCursor") eqn:E1;
      [|cbn; intros [= <-]; left;
        apply getitem_str_raises in E1 as [->| ->]; eauto].
    destruct (getitem_str page_data "previousPageCursor") eqn:E2;
      [|cbn; intros [= <-]; left;
        apply getitem_str_raises in E2 as [->| ->]; eauto].
    destruct (getitem_str page_data "data") eqn:E3;
      [|cbn; intros [= <-]; left;
        apply getitem_str_raises in E3 as [->| ->]; eauto].
    cbn. intros A. apply apply_handler_raises in A as [->|A]; auto.
Qed.

Lemma numbered_next_raises (s : PageNumberIterator.t) (w : world Srv) (e : exn) :
  fst (fst (PageNumberIterator.next respond s w)) = Raise e ->
  Caller.own_failure e \/
  Caller.raised_by_handler (PageNumberIterator.handler s)
    (PageNumberIterator.handler_kwargs s) e.
Proof.
  unfold Caller.own_failure. rewrite next_numbered. cbn zeta.
  destruct (fst (respond _ _)) as [data|name];
    [|cbn; intros [= <-]; left; eauto].
  destruct (len data) as [n|e'] eqn:L;
    [|cbn; intros [= <-]; apply len_raises in L as ->; auto].
  destruct (n =? 0); cbn; [intros [= <-]; auto|].
  intros A. apply apply_handler_raises in A as [->|A]; auto.
Qed.

Lemma cursor_next_never_stops (s : PageIterator.t) (w : world Srv) :
  Caller.handler_never Caller.is_StopAsyncIteration (PageIterator.handler s) ->
  fst (fst (PageIterator.next respond s w)) <> Raise StopAsyncIteration.
Proof.
  intros Q E. apply cursor_next_raises in E
    as [[E|[E|[[k E]|[name E]]]]|(f & item & Hf & Hr)]; try discriminate.
  apply (Q f _ item _ Hf) in Hr. discriminate.
Qed.

Lemma numbered_next_never_stops (s : PageNumberIterator.t) (w : world Srv) :
  Caller.handler_never Caller.is_StopAsyncIteration
    (PageNumberIterator.handler s) ->
  fst (fst (PageNumberIterator.next respond s w)) <> Raise StopAsyncIteration.
Proof.
  intros Q E. apply numbered_next_raises in E
    as [[E|[E|[[k E]|[name E]]]]|(f & item & Hf & Hr)]; try discriminate.
  apply (Q f _ item _ Hf) in Hr. discriminate.
Qed.

Lemma cursor_next_keeps_handler (s s' : PageIterator.t) (w w' : world Srv) r :
  PageIterator.next respond s w = (r, s', w') ->
  PageIterator.handler s' = PageIterator.handler s.
Proof. intros E. apply cursor_next_step in E. tauto. Qed.

Lemma numbered_next_keeps_handler (s s' : PageNumberIterator.t)
    (w w' : world Srv) r :
  PageNumberIterator.next respond s w = (r, s', w') ->
  PageNumberIterator.handler s' = PageNumberIterator.handler s.
Proof.
  rewrite next_numbered. cbn zeta.
  destruct (fst (respond _ _)) as [data|name]; [|intros [= _ <- _]; reflexivity].
  destruct (len data) as [k|e]; [|intros [= _ <- _]; reflexivity].
  destruct (k =? 0); intros [= _ <- _]; reflexivity.
Qed.

(** C3: for the cursor iterator and for the page-number iterator, run
    against the same server from the same state with the same bound on the
    number of calls: when [flatten()] returns the list [l], the page view
    runs to its end and the pages it yielded, concatenated in order, are
    [l], both leaving the iterator and the world in the same state; and
    conversely, when the handler does not itself raise
    [StopAsyncIteration]. *)
Theorem flatten_is_concatenated_pages (fuel : nat) :
  (forall (s s' : PageIterator.t) (w w' : world Srv) (l : list value),
      (PageIterator.flatten respond fuel s w = Some (Ok l, s', w') ->
       exists pages,
         IteratorPages.collect (PageIterator.next respond) fuel s w
           = Some (Ok pages, s', w') /\
         Caller.concat_pages pages = Ok l) /\
      (Caller.handler_never Caller.is_StopAsyncIteration (PageIterator.handler s) ->
       (exists pages,
           IteratorPages.collect (PageIterator.next respond) fuel s w
             = Some (Ok pages, s', w') /\
           Caller.concat_pages pages = Ok l) ->
       PageIterator.flatten respond fuel s w = Some (Ok l, s', w'))) /\
  (forall (s s' : PageNumberIterator.t) (w w' : world Srv) (l : list value),
      (PageNumberIterator.flatten respond fuel s w = Some (Ok l, s', w') ->
       exists pages,
         IteratorPages.collect (PageNumberIterator.next respond) fuel s w
           = Some (Ok pages, s', w') /\
         Caller.concat_pages pages = Ok l) /\
      (Caller.handler_never Caller.is_StopAsyncIteration
         (PageNumberIterator.handler s) ->
       (exists pages,
           IteratorPages.collect (PageNumberIterator.next respond) fuel s w
             = Some (Ok pages, s', w') /\
           Caller.concat_pages pages = Ok l) ->
       PageNumberIterator.flatten respond fuel s w = Some (Ok l, s', w'))).
Proof.
  split; intros s s' w w' l; (split; [apply flatten_gives_pages|]); intros Q.
  - apply (pages_give_flatten (PageIterator.next respond)
             (fun s0 => PageIterator.handler s0 = PageIterator.handler s)).
    + intros it w0 r it' w0' H E.
      rewrite (cursor_next_keeps_handler _ _ _ _ _ E). exact H.
    + intros it w0 H. apply cursor_next_never_stops. rewrite H. exact Q.
    + reflexivity.
  - apply (pages_give_flatten (PageNumberIterator.next respond)
             (fun s0 => PageNumberIterator.handler s0 = PageNumberIterator.handler s)).
    + intros it w0 r it' w0' H E.
      rewrite (numbered_next_keeps_handler _ _ _ _ _ E). exact H.
    + intros it w0 H. apply numbered_next_never_stops. rewrite H. exact Q.
    + reflexivity.
Qed.

End Raises.

(** ** The item view *)

Section ItemView.
Context {Srv I : Type}.
Variable iterator_next : M (Srv:=Srv) I value.

Import IteratorItems.

Lemma getitem_int_raises (v : value) (i : Z) (e : exn) :
  getitem_int v i = Raise e ->
  e = IndexError \/ e = TypeError \/ e = KeyError (VInt i).
Proof.
  destruct v as [| | |s|l|d|]; cbn; try (intros [= <-]; auto; fail).
  - destruct (seq_index _ i) as [n|]; [|intros [= <-]; auto].
    destruct (chars s !! n); intros [= <-]; auto.
  - destruct (seq_index _ i) as [n|]; [|intros [= <-]; auto].
    destruct (l !! n); intros [= <-]; auto.
Qed.

Lemma getitem_first (x : value) (xs : list value) :
  getitem_int (VList (x :: xs)) 0 = Ok x.
Proof.
  unfold getitem_int, seq_index. cbn [length]. rewrite Nat2Z.inj_succ.
  destruct (0 <? Z.succ (Z.of_nat (length xs))) eqn:C; [reflexivity|].
  apply Z.ltb_ge in C. lia.
Qed.

(** C7: when the item view is at the end of its buffer and the page it
    fetches is empty, [__anext__] ends the sequence with
    [StopAsyncIteration]; and [__anext__] never lets an [IndexError] out of
    its own read: it raises one only if the iterator's [next()] did. *)
Theorem empty_page_ends_items (v : t) (it it' : I) (w w' : world Srv) :
  len (_items v) = Ok (_position v) ->
  iterator_next it w = (Ok (VList []), it', w') ->
  anext iterator_next (v, it) w =
    (Raise StopAsyncIteration,
     ({| _position := 0; _items := VList [] |}, it'), w') /\
  (forall o w0,
      fst (fst (iterator_next (snd o) w0)) <> Raise IndexError ->
      fst (fst (anext iterator_next o w0)) <> Raise IndexError).
Proof.
  intros L E. split.
  - unfold anext, bind, self, lift. cbn. rewrite L. cbn.
    rewrite Z.eqb_refl. unfold bind, set_position, assign, try_except,
      call_iterator_next. cbn. rewrite E. reflexivity.
  - clear. intros [v0 it0] w0 N. cbn in N.
    unfold anext, bind, self, lift. cbn.
    destruct (len (_items v0)) as [n|e] eqn:L;
      [|apply len_raises in L as ->; cbn; discriminate].
    cbn. destruct (_position v0 =? n).
    + unfold bind, set_position, set_items, assign, try_except,
        call_iterator_next. cbn.
      destruct (iterator_next it0 w0) as [[[page|e] it1] w1]; cbn in *.
      * destruct (getitem_int page 0) as [x|e] eqn:G; cbn; [discriminate|].
        apply getitem_int_raises in G as [->|[->| ->]]; cbn; discriminate.
      * destruct e; cbn; congruence.
    + unfold try_except, ret, bind, set_position, assign. cbn.
      destruct (getitem_int (_items v0) (_position v0)) as [x|e] eqn:G; cbn;
        [discriminate|].
      apply getitem_int_raises in G as [->|[->| ->]]; cbn; discriminate.
Qed.

(** C8: [__aiter__] on the item view puts the position back to 0 and the
    buffer back to the empty list and touches neither the iterator nor the
    world; the step that follows therefore fetches, and yields the first
    item of the page the iterator returns from where it stands. *)
Theorem restart_resumes_at_next_page (o : t * I) (w : world Srv) :
  aiter (Srv:=Srv) o w =
    (Ok tt, ({| _position := 0; _items := VList [] |}, snd o), w) /\
  (forall (x : value) (xs : list value) (it' : I) (w' : world Srv),
      iterator_next (snd o) w = (Ok (VList (x :: xs)), it', w') ->
      (do aiter then anext iterator_next) o w =
        (Ok x, ({| _position := 1; _items := VList (x :: xs) |}, it'), w')).
Proof.
  destruct o as [v it]. cbn [snd]. split; [reflexivity|].
  intros x xs it' w' E.
  unfold aiter, anext, bind, self, lift, ret, set_position, set_items, assign,
    try_except, call_iterator_next.
  cbn [fst snd _position _items len length]. change (Z.of_nat 0) with 0.
  cbn [Z.eqb fst snd _position _items]. rewrite E.
  cbn [fst snd _position _items]. rewrite getitem_first. reflexivity.
Qed.

End ItemView.

(** ** The properties at work on concrete iterators *)

Lemma started_without_cursor_is_exhausted_witness :
  PageIterator.next_started Fixture.members_done = true /\
  truthy (PageIterator.next_cursor Fixture.members_done) = false /\
  PageIterator.next Server.scripted Fixture.members_done
      (Fixture.fresh_world Fixture.script_two_pages)
    = (Raise (NoMoreItems "No more items."), Fixture.members_done,
       Fixture.fresh_world Fixture.script_two_pages) /\
  Caller.calls (PageIterator.next Server.scripted) 3 Fixture.members_done
      (Fixture.fresh_world Fixture.script_two_pages)
    = (replicate 3 (Raise (NoMoreItems "No more items.")),
       Fixture.members_done, Fixture.fresh_world Fixture.script_two_pages).
Proof.
  split; [reflexivity|]. split; [reflexivity|].
  apply (started_without_cursor_is_exhausted Server.scripted
           Fixture.members_done
           (Fixture.fresh_world Fixture.script_two_pages) 3); reflexivity.
Defined.

(** C2 as stated fails: a handler that raises [NoMoreItems] on a record of
    page 1 makes [next()] signal exhaustion after [page_number] has moved
    on, and the next call returns page 2, against a server that answers
    identical requests identically. *)
Lemma data_after_exhaustion :
  Server.stationary (Server.numbered Sample.single_table) /\
  fst (fst (Caller.calls
              (PageNumberIterator.next (Server.numbered Sample.single_table))
              3 Sample.chat_stopping (Fixture.fresh_world tt)))
    = [Raise (NoMoreItems "stop");
       Ok (VList [VInt 2]);
       Raise (NoMoreItems "No more items.")].
Proof.
  split; [intros [] [] rq; reflexivity|reflexivity].
Qed.

Lemma exhaustion_is_stable_witness :
  Server.stationary (Server.numbered Fixture.chat_table) /\
  Caller.handler_never is_NoMoreItems
    (PageNumberIterator.handler Sample.chat_items_at_3) /\
  fst (PageNumberIterator.next (Server.numbered Fixture.chat_table)
         Sample.chat_items_at_3 (Fixture.fresh_world tt))
    = (Raise (NoMoreItems "No more items."), Sample.chat_items_at_3) /\
  Forall Caller.exhausted
    (fst (fst (Caller.calls
                 (PageNumberIterator.next (Server.numbered Fixture.chat_table))
                 4 Sample.chat_items_at_3
                 (snd (PageNumberIterator.next
                         (Server.numbered Fixture.chat_table)
                         Sample.chat_items_at_3 (Fixture.fresh_world tt)))))).
Proof.
  assert (St : Server.stationary (Server.numbered Fixture.chat_table)).
  { intros [] [] rq. reflexivity. }
  assert (Q : Caller.handler_never is_NoMoreItems
                (PageNumberIterator.handler Sample.chat_items_at_3)).
  { intros f kw item e [= <-] H. destruct item; inversion H; reflexivity. }
  split; [exact St|]. split; [exact Q|]. split; [reflexivity|].
  apply (proj2 (exhaustion_is_stable (Server.numbered Fixture.chat_table) 4 St)
           Sample.chat_items_at_3 Sample.chat_items_at_3 (Fixture.fresh_world tt)
           _ "No more items." Q).
  reflexivity.
Defined.

Lemma flatten_is_concatenated_pages_witness :
  exists s' w',
    PageIterator.flatten Server.scripted 5 Fixture.members
        (Fixture.fresh_world Fixture.script_two_pages)
      = Some (Ok [VInt 1; VInt 2; VInt 3; VInt 4; VInt 5], s', w') /\
    exists pages,
      IteratorPages.collect (PageIterator.next Server.scripted) 5
          Fixture.members (Fixture.fresh_world Fixture.script_two_pages)
        = Some (Ok pages, s', w') /\
      Caller.concat_pages pages = Ok [VInt 1; VInt 2; VInt 3; VInt 4; VInt 5].
Proof.
  eexists _, _. split; [reflexivity|].
  apply (proj1 (proj1 (flatten_is_concatenated_pages Server.scripted 5)
                  Fixture.members _
                  (Fixture.fresh_world Fixture.script_two_pages) _ _)).
  reflexivity.
Defined.

(** C4 as stated fails: a fresh page-number iterator whose first fetch
    comes back empty sends [pageNumber = 1] again on its second fetch. *)
Lemma second_fetch_repeats_page_number :
  Fixture.sent "pageNumber"
    (snd (Caller.calls (PageNumberIterator.next (Server.numbered [])) 2
            Fixture.chat (Fixture.fresh_world tt)))
    = [Some (VInt 1); Some (VInt 1)] /\
  ~ (forall (n : nat) (rq : request),
       log (snd (Caller.calls (PageNumberIterator.next (Server.numbered [])) 2
                   Fixture.chat (Fixture.fresh_world tt))) !! n = Some rq ->
       req_params rq !! "pageNumber" = Some (VInt (Z.of_nat (S n)))).
Proof.
  split; [reflexivity|].
  intros H. specialize (H 1%nat _ eq_refl). vm_compute in H. discriminate H.
Qed.

Lemma page_number_protocol_witness :
  (exists w',
      PageNumberIterator.next (Server.numbered Fixture.chat_table)
          Fixture.chat_at_3 (Fixture.fresh_world tt)
        = (Raise (NoMoreItems "No more items."), Fixture.chat_at_3, w')) /\
  (exists rs s' w',
      Caller.calls (PageNumberIterator.next (Server.numbered Fixture.chat_table))
          2 Fixture.chat (Fixture.fresh_world tt) = (rs, s', w') /\
      Forall Caller.returned rs /\
      PageNumberIterator.page_number s' = 3 /\
      exists r s'' w'' rq,
        PageNumberIterator.next (Server.numbered Fixture.chat_table) s' w'
          = (r, s'', w'') /\
        log w'' = log w' ++ [rq] /\
        req_params rq !! "pageNumber" = Some (VInt 3)).
Proof.
  pose proof (page_number_protocol (Server.numbered Fixture.chat_table))
    as (_ & _ & _ & Empty & Nth).
  split.
  - apply (Empty Fixture.chat_at_3 (Fixture.fresh_world tt) (VList []));
      reflexivity.
  - eexists _, _, _. split; [reflexivity|].
    assert (F : Forall Caller.returned
                  [Ok (VList [VInt 1; VInt 2]); Ok (VList [VInt 3])]).
    { repeat constructor; eexists; reflexivity. }
    split; [exact F|].
    apply (Nth "v2/chat" 10 None None None 2%nat (Fixture.fresh_world tt) _ _ _
             eq_refl eq_refl F).
Defined.

(** C5 as stated fails: an iterator that has not started and holds the
    cursor "abc" sends "abc", not the empty string, on its first call. *)
Lemma first_call_sends_cursor_abc :
  PageIterator.next_started Fixture.members_resumed = false /\
  Fixture.sent "cursor"
    (snd (PageIterator.next Server.scripted Fixture.members_resumed
            (Fixture.fresh_world Fixture.script_two_pages)))
    = [Some (VStr "abc")] /\
  Fixture.sent "cursor"
    (snd (PageIterator.next Server.scripted Fixture.members_resumed
            (Fixture.fresh_world Fixture.script_two_pages)))
    <> [Some (VStr "")].
Proof.
  split; [reflexivity|]. split; [reflexivity|]. vm_compute. discriminate.
Qed.

Lemma first_call_sends_held_cursor_witness :
  PageIterator.next_started Fixture.members = false /\
  exists r s' w' rq,
    PageIterator.next Server.scripted Fixture.members
        (Fixture.fresh_world Fixture.script_two_pages) = (r, s', w') /\
    log w' = log (Fixture.fresh_world Fixture.script_two_pages) ++ [rq] /\
    req_url rq = PageIterator.url Fixture.members /\
    req_params rq !! "cursor" = Some (VStr "") /\
    PageIterator.next_started s' = true /\
    (forall msg,
        r = Raise (NoMoreItems msg) ->
        Caller.raised_by_handler (PageIterator.handler Fixture.members)
          (PageIterator.handler_kwargs Fixture.members) (NoMoreItems msg)).
Proof.
  split; [reflexivity|].
  apply (first_call_sends_held_cursor Server.scripted Fixture.members
           (Fixture.fresh_world Fixture.script_two_pages)); reflexivity.
Defined.

(** C6 as stated fails: on the first call of an iterator whose handler
    raises [NoMoreItems] on a record, [next()] raises [NoMoreItems] though
    the iterator had not started and the request was sent: the guard did
    not raise it. *)
Lemma exhaustion_from_the_handler :
  PageIterator.next_started Sample.members_stopping = false /\
  fst (fst (PageIterator.next Server.scripted Sample.members_stopping
              (Fixture.fresh_world Fixture.script_two_pages)))
    = Raise (NoMoreItems "stop") /\
  Endpoint.sent "cursor"
    (snd (PageIterator.next Server.scripted Sample.members_stopping
            (Fixture.fresh_world Fixture.script_two_pages)))
    = [Some (VStr "")].
Proof. split; [reflexivity|]. split; reflexivity. Qed.

Lemma empty_page_is_returned_witness :
  (exists s' w',
      PageIterator.next Server.scripted Fixture.members_at_abc
          (Fixture.fresh_world [Returns Fixture.empty_last_page])
        = (Ok (VList []), s', w') /\
      PageIterator.next_cursor s' = VStr "" /\
      Endpoint.sent "cursor" w' = [Some (VStr "abc")] /\
      PageIterator.next Server.scripted s' w'
        = (Raise (NoMoreItems "No more items."), s', w')) /\
  (forall s0 w0 msg s1 w1,
      PageIterator.next Server.scripted s0 w0
        = (Raise (NoMoreItems msg), s1, w1) ->
      (PageIterator.next_started s0 = true /\
       truthy (PageIterator.next_cursor s0) = false /\ s1 = s0 /\ w1 = w0) \/
      Caller.raised_by_handler (PageIterator.handler s0)
        (PageIterator.handler_kwargs s0) (NoMoreItems msg)).
Proof.
  destruct (empty_page_is_returned Server.scripted Fixture.members_at_abc
              (Fixture.fresh_world [Returns Fixture.empty_last_page])
              Fixture.empty_last_page (VStr "") (VStr "xyz")
              eq_refl eq_refl eq_refl eq_refl eq_refl)
    as [Page Guard].
  split; [|exact Guard].
  eexists _, _. split; [exact Page|]. split; [reflexivity|].
  split; reflexivity.
Defined.

Lemma empty_page_ends_items_witness :
  len (IteratorItems._items IteratorItems.init)
    = Ok (IteratorItems._position IteratorItems.init) /\
  fst (fst (PageIterator.next Server.scripted Fixture.members
              (Fixture.fresh_world Fixture.script_empty_page)))
    = Ok (VList []) /\
  fst (fst (IteratorItems.anext (PageIterator.next Server.scripted)
              (IteratorItems.init, Fixture.members)
              (Fixture.fresh_world Fixture.script_empty_page)))
    = Raise StopAsyncIteration.
Proof.
  split; [reflexivity|]. split; [reflexivity|].
  rewrite (proj1 (empty_page_ends_items (PageIterator.next Server.scripted)
                    IteratorItems.init Fixture.members _
                    (Fixture.fresh_world Fixture.script_empty_page) _
                    eq_refl eq_refl)).
  reflexivity.
Defined.

Lemma restart_resumes_at_next_page_witness :
  exists o1 w1,
    IteratorItems.anext (PageIterator.next Server.scripted)
        (IteratorItems.init, Fixture.members)
        (Fixture.fresh_world Fixture.script_two_pages)
      = (Ok (VInt 1), o1, w1) /\
    PageIterator.next_cursor (snd o1) = VStr "abc" /\
    fst (IteratorItems.aiter (Srv:=list (outcome value)) o1 w1)
      = (Ok tt, (IteratorItems.init, snd o1)) /\
    fst (fst ((do IteratorItems.aiter then
               IteratorItems.anext (PageIterator.next Server.scripted)) o1 w1))
      = Ok (VInt 4).
Proof.
  eexists _, _. split; [reflexivity|]. split; [reflexivity|].
  split; [reflexivity|].
  lazymatch goal with
  | |- fst (fst (_ ?o ?w)) = _ =>
      rewrite (proj2 (restart_resumes_at_next_page
                        (PageIterator.next Server.scripted) o w)
                 (VInt 4) [VInt 5] _ _ eq_refl)
  end.
  reflexivity.
Defined.

(** C9 as stated fails: a body without [previousPageCursor] aborts the
    call with [KeyError]. *)
Lemma missing_previous_cursor_raises :
  fst (fst (PageIterator.next Server.scripted Fixture.members
              (Fixture.fresh_world Fixture.script_no_previous)))
    = Raise (KeyError (VStr "previousPageCursor")).
Proof. reflexivity. Qed.

Lemma cursors_are_subscripted_witness :
  (exists r s' w',
      PageIterator.next Server.scripted Fixture.members
          (Fixture.fresh_world Fixture.script_two_pages) = (r, s', w') /\
      PageIterator.next_cursor s' = VStr "abc" /\
      PageIterator.previous_cursor s' = VNone /\
      r = Ok (VList [VInt 1; VInt 2; VInt 3])) /\
  (exists r s' w',
      PageIterator.next Server.scripted Fixture.members
          (Fixture.fresh_world Fixture.script_no_previous) = (r, s', w') /\
      r = Raise (KeyError (VStr "previousPageCursor")) /\
      PageIterator.next_cursor s' = VStr "abc" /\
      PageIterator.previous_cursor s' = VStr "").
Proof.
  split.
  - exact (cursors_are_subscripted Server.scripted Fixture.members
             (Fixture.fresh_world Fixture.script_two_pages)
             [("previousPageCursor", VNone); ("nextPageCursor", VStr "abc");
              ("data", VList [VInt 1; VInt 2; VInt 3])] eq_refl eq_refl).
  - exact (cursors_are_subscripted Server.scripted Fixture.members
             (Fixture.fresh_world Fixture.script_no_previous)
             [("nextPageCursor", VStr "abc"); ("data", VList [VInt 1])]
             eq_refl eq_refl).
Defined.

Lemma guard_tests_falsiness_witness :
  truthy VNone = false /\ truthy (VStr "") = false /\
  exists r s' w',
    PageIterator.next Server.scripted Fixture.members
        (Fixture.fresh_world Fixture.script_null_cursor) = (r, s', w') /\
    PageIterator.next_cursor s' = VNone /\
    (truthy VNone = false ->
       PageIterator.next Server.scripted s' w'
         = (Raise (NoMoreItems "No more items."), s', w')) /\
    (truthy VNone = true ->
       (exists rq,
           log (snd (PageIterator.next Server.scripted s' w')) = log w' ++ [rq]) /\
       (Caller.handler_never is_NoMoreItems
          (PageIterator.handler Fixture.members) ->
        ~ Caller.exhausted
            (fst (fst (PageIterator.next Server.scripted s' w'))))).
Proof.
  exact (guard_tests_falsiness Server.scripted Fixture.members
           (Fixture.fresh_world Fixture.script_null_cursor)
           [("previousPageCursor", VNone); ("nextPageCursor", VNone);
            ("data", VList [VInt 1])] VNone VNone
           eq_refl eq_refl eq_refl eq_refl).
Defined.

(** The scenarios of the specification, run. *)

Example flatten_two_cursor_pages :
  option_map (fun r => fst (fst r))
    (PageIterator.flatten Server.scripted 3 Fixture.members
       (Fixture.fresh_world Fixture.script_two_pages))
    = Some (Ok [VInt 1; VInt 2; VInt 3; VInt 4; VInt 5]).
Proof. reflexivity. Qed.

Example flatten_numbered_pages :
  option_map (fun r => (fst (fst r), PageNumberIterator.page_number (snd (fst r)),
                        Fixture.sent "pageNumber" (snd r)))
    (PageNumberIterator.flatten (Server.numbered Fixture.chat_table) 3
       Fixture.chat (Fixture.fresh_world tt))
    = Some (Ok [VInt 1; VInt 2; VInt 3], 3,
            [Some (VInt 1); Some (VInt 2); Some (VInt 3)]).
Proof. reflexivity. Qed.

Example flatten_out_of_fuel :
  PageIterator.flatten Server.scripted 2 Fixture.members
    (Fixture.fresh_world Fixture.script_two_pages) = None.
Proof. reflexivity. Qed.

(** * Further properties of the iterators *)

(** ** The handler *)

Lemma mapM_Forall2 {A B} (f : A -> result B) (l : list A) (ys : list B) :
  mapM f l = Ok ys -> Forall2 (fun x y => f x = Ok y) l ys.
Proof.
  revert ys. induction l as [|x l IH]; cbn; intros ys.
  - intros [= <-]. constructor.
  - destruct (f x) as [y|e] eqn:E; [|discriminate].
    destruct (mapM f l) as [ys'|e]; [|discriminate].
    intros [= <-]. constructor; auto.
Qed.



(** ** What a call leaves alone *)

Section Frames.
Context {Srv : Type}.
Variable respond : Srv -> request -> outcome value * Srv.

(** X2: across any number of calls, whatever the server answers, the cursor
    iterator keeps its configuration ([url], [sort_order], [limit],
    [extra_parameters], [handler], [handler_kwargs]); it stays started once
    started; it sends at most one request per call, the log only growing at
    its end; and every request it sends goes to [url], carries each extra
    parameter with the caller's value, and carries [limit] and [sortOrder]
    from the configuration unless an extra parameter of that name replaces
    them. *)
Theorem cursor_calls_keep_configuration (n : nat) :
  forall (s s' : PageIterator.t) (w w' : world Srv) (rs : list (result value)),
    Caller.calls (PageIterator.next respond) n s w = (rs, s', w') ->
    PageIterator.url s' = PageIterator.url s /\
    PageIterator.sort_order s' = PageIterator.sort_order s /\
    PageIterator.limit s' = PageIterator.limit s /\
    PageIterator.extra_parameters s' = PageIterator.extra_parameters s /\
    PageIterator.handler s' = PageIterator.handler s /\
    PageIterator.handler_kwargs s' = PageIterator.handler_kwargs s /\
    (PageIterator.next_started s = true -> PageIterator.next_started s' = true) /\
    length rs = n /\
    exists sent,
      log w' = log w ++ sent /\ (length sent <= n)%nat /\
      Forall (fun rq =>
                req_url rq = PageIterator.url s /\
                (forall k v, PageIterator.extra_parameters s !! k = Some v ->
                             req_params rq !! k = Some v) /\
                (PageIterator.extra_parameters s !! "limit" = None ->
                 req_params rq !! "limit" = Some (VInt (PageIterator.limit s))) /\
                (PageIterator.extra_parameters s !! "sortOrder" = None ->
                 req_params rq !! "sortOrder" =
                   Some (VStr (SortOrder.value (PageIterator.sort_order s)))))
             sent.
Proof.
  induction n as [|n IH]; intros s s' w w' rs.
  - cbn. intros [= <- <- <-]. do 8 (split; [auto|]).
    exists []. rewrite app_nil_r. auto.
  - cbn [Caller.calls].
    destruct (PageIterator.next respond s w) as [[r s1] w1] eqn:E.
    destruct (Caller.calls _ n s1 w1) as [[rs' s2] w2] eqn:E'.
    intros [= <- <- <-].
    apply cursor_next_step in E
      as (U & O & L & X & H & K & _ & _ & St & W).
    apply IH in E' as (U' & O' & L' & X' & H' & K' & St' & Len & sent & Lg & Le & F).
    do 6 (split; [congruence|]).
    split; [auto|]. split; [cbn; congruence|].
    rewrite U, O, L, X in F.
    destruct W as [[_ ->]|(_ & _ & _ & Lg1)].
    + exists sent. split; [exact Lg|]. split; [lia|]. exact F.
    + eexists (_ :: sent). rewrite Lg, Lg1, <- app_assoc. split; [reflexivity|].
      split; [cbn; lia|]. constructor; [|exact F]. cbn.
      split; [reflexivity|]. unfold PageIterator.params. split; [|split].
      * intros k v Hk. apply lookup_union_Some_l, Hk.
      * intros Hk. rewrite lookup_union_r by exact Hk. reflexivity.
      * intros Hk. rewrite lookup_union_r by exact Hk. reflexivity.
Qed.

(** X3: across any number of calls, whatever the server answers, the
    page-number iterator changes nothing but [page_number], which never
    goes down and goes up by at most one per call; every call sends exactly
    one request, to [url], carrying each extra parameter with the caller's
    value and [pageSize] unless an extra parameter replaces it. *)
Theorem numbered_calls_only_advance (n : nat) :
  forall (s s' : PageNumberIterator.t) (w w' : world Srv)
         (rs : list (result value)),
    Caller.calls (PageNumberIterator.next respond) n s w = (rs, s', w') ->
    s' = PageNumberIterator.set_page_number (PageNumberIterator.page_number s') s /\
    PageNumberIterator.page_number s <= PageNumberIterator.page_number s'
      <= PageNumberIterator.page_number s + Z.of_nat n /\
    exists sent,
      log w' = log w ++ sent /\ length sent = n /\
      Forall (fun rq =>
                req_url rq = PageNumberIterator.url s /\
                (forall k v,
                    PageNumberIterator.extra_parameters s !! k = Some v ->
                    req_params rq !! k = Some v) /\
                (PageNumberIterator.extra_parameters s !! "pageSize" = None ->
                 req_params rq !! "pageSize" =
                   Some (VInt (PageNumberIterator.page_size s))))
             sent.
Proof.
  induction n as [|n IH]; intros s s' w w' rs.
  - cbn. intros [= <- <- <-]. split; [destruct s; reflexivity|].
    split; [lia|]. exists []. rewrite app_nil_r. auto.
  - cbn [Caller.calls].
    destruct (PageNumberIterator.next respond s w) as [[r s1] w1] eqn:E.
    destruct (Caller.calls _ n s1 w1) as [[rs' s2] w2] eqn:E'.
    intros [= <- <- <-].
    apply IH in E' as (Eq & Le & sent & Lg & Len & F).
    rewrite next_numbered in E. cbn zeta in E.
    assert (S1 : (s1 = s \/
                  s1 = PageNumberIterator.set_page_number
                         (PageNumberIterator.page_number s + 1) s) /\
                 w1 = {| srv := snd (respond (srv w)
                                  {| req_url := PageNumberIterator.url s;
                                     req_params := PageNumberIterator.params s |});
                         log := log w ++
                                  [{| req_url := PageNumberIterator.url s;
                                      req_params := PageNumberIterator.params s |}] |}).
    { destruct (fst (respond _ _)) as [data|name]; [|injection E as _ <- <-; auto].
      destruct (len data) as [k|e]; [|injection E as _ <- <-; auto].
      destruct (k =? 0); injection E as _ <- <-; auto. }
    destruct S1 as [S1 ->]. cbn [log] in Lg.
    assert (F' : Forall (fun rq =>
                req_url rq = PageNumberIterator.url s /\
                (forall k v,
                    PageNumberIterator.extra_parameters s !! k = Some v ->
                    req_params rq !! k = Some v) /\
                (PageNumberIterator.extra_parameters s !! "pageSize" = None ->
                 req_params rq !! "pageSize" =
                   Some (VInt (PageNumberIterator.page_size s)))) sent)
      by (destruct S1 as [->| ->]; exact F).
    split; [|split].
    + rewrite Eq. destruct S1 as [->| ->]; destruct s; reflexivity.
    + destruct S1 as [->| ->]; cbn in Le; lia.
    + eexists (_ :: sent). rewrite Lg, <- app_assoc. split; [reflexivity|].
      split; [cbn; lia|]. constructor; [|exact F']. cbn.
      split; [reflexivity|]. unfold PageNumberIterator.params. split.
      * intros k v Hk. apply lookup_union_Some_l, Hk.
      * intros Hk. rewrite lookup_union_r by exact Hk.
        rewrite lookup_insert_ne by discriminate. apply lookup_insert_eq.
Qed.

End Frames.

(** ** Failures that are not exhaustion *)

Section PassThrough.
Context {Srv I : Type}.
Variable next : M (Srv:=Srv) I value.

(** X4: an exception of [next()] other than [NoMoreItems] leaves [flatten],
    dropping what had been accumulated, and leaves the page view, each time
    unchanged and with the iterator and the world as [next()] left them. *)
Theorem other_failures_pass_through (e : exn) (it it' : I) (w w' : world Srv) :
  is_NoMoreItems e = false ->
  next it w = (Raise e, it', w') ->
  (forall fuel items,
      Iterator.flatten_loop next (S fuel) items it w = Some (Raise e, it', w')) /\
  IteratorPages.anext next it w = (Raise e, it', w').
Proof.
  intros N E. split.
  - intros fuel items. cbn.
    unfold Iterator.flatten_step, try_except, bind. rewrite E, N. reflexivity.
  - unfold IteratorPages.anext, try_except. rewrite E, N. reflexivity.
Qed.

(** X5: when the item view is at the end of a non-empty buffer and the fetch
    fails with something other than [NoMoreItems], [__anext__] raises that
    failure with the position back at 0 and the old buffer kept; a further
    [__anext__] then yields the first item of that old buffer again, with
    no call to the iterator. *)
Theorem failed_fetch_replays_buffer (e : exn) (x : value) (xs : list value)
    (it it' : I) (w w' : world Srv) :
  is_NoMoreItems e = false ->
  next it w = (Raise e, it', w') ->
  IteratorItems.anext next
      ({| IteratorItems._position := Z.of_nat (length (x :: xs));
          IteratorItems._items := VList (x :: xs) |}, it) w
    = (Raise e,
       ({| IteratorItems._position := 0;
           IteratorItems._items := VList (x :: xs) |}, it'), w') /\
  (forall it2 w2,
      IteratorItems.anext next
          ({| IteratorItems._position := 0;
              IteratorItems._items := VList (x :: xs) |}, it2) w2
        = (Ok x,
           ({| IteratorItems._position := 1;
               IteratorItems._items := VList (x :: xs) |}, it2), w2)).
Proof.
  intros N E. split.
  - unfold IteratorItems.anext, bind, self, lift, IteratorItems.set_position,
      IteratorItems.set_items, assign, try_except,
      IteratorItems.call_iterator_next.
    cbn [fst snd IteratorItems._position IteratorItems._items len].
    rewrite Z.eqb_refl. cbn [fst snd IteratorItems._position IteratorItems._items].
    rewrite E, N. reflexivity.
  - intros it2 w2.
    unfold IteratorItems.anext, bind, self, lift, IteratorItems.set_position,
      IteratorItems.set_items, assign, try_except, ret.
    cbn [fst snd IteratorItems._position IteratorItems._items len].
    destruct (0 =? Z.of_nat (length (x :: xs))) eqn:C;
      [apply Z.eqb_eq in C; cbn [length] in C; lia|].
    cbn [fst snd IteratorItems._position IteratorItems._items].
    rewrite getitem_first. reflexivity.
Qed.

(** A run of [flatten] that returned ended on a call that raised
    [NoMoreItems] and left the final state; that call was made in a state
    the run had reached. *)
Variable reached : I -> Prop.

Hypothesis reached_kept :
  forall it w r it' w', reached it -> next it w = (r, it', w') -> reached it'.

Lemma flatten_loop_ends_exhausted (fuel : nat) :
  forall items it w l it' w',
    reached it ->
    Iterator.flatten_loop next fuel items it w = Some (Ok l, it', w') ->
    exists it0 w0 e,
      reached it0 /\
      is_NoMoreItems e = true /\ next it0 w0 = (Raise e, it', w').
Proof.
  induction fuel as [|fuel IH]; intros items it w l it' w' R; cbn; [discriminate|].
  unfold Iterator.flatten_step, try_except, bind, lift, ret.
  pose proof (reached_kept it w) as RK.
  destruct (next it w) as [[[page|e] it1] w1] eqn:E.
  - destruct (iter page) as [more|e] eqn:It.
    + apply IH. eapply RK; eauto.
    + apply iter_raises in It as ->. cbn. discriminate.
  - destruct (is_NoMoreItems e) eqn:N.
    + intros [= <- <- <-]. eauto 10.
    + discriminate.
Qed.

End PassThrough.

(** ** The item view's position *)

Section ItemPosition.
Context {Srv I : Type}.
Variable next : M (Srv:=Srv) I value.

Import IteratorItems.

Lemma getitem_int_list_Ok (l : list value) (p : Z) (x : value) :
  0 <= p ->
  getitem_int (VList l) p = Ok x ->
  p < Z.of_nat (length l) /\ l !! Z.to_nat p = Some x.
Proof.
  intros P. unfold getitem_int, seq_index.
  destruct (0 <=? p) eqn:A; [|apply Z.leb_gt in A; lia].
  destruct (p <? Z.of_nat (length l)) eqn:B; cbn.
  - apply Z.ltb_lt in B. destruct (l !! Z.to_nat p); [|discriminate].
    intros [= <-]. auto.
  - destruct (- Z.of_nat (length l) <=? p); cbn; [|discriminate].
    destruct (p <? 0) eqn:C; [apply Z.ltb_lt in C; lia|discriminate].
Qed.

(** X6: as long as the pages the iterator returns are lists, [__anext__]
    keeps the buffer a list and the position between 0 and its length, and
    an item it yields is the buffered item just before the new position. *)
Theorem item_position_stays_in_buffer (v v' : t) (it it' : I)
    (w w' : world Srv) (r : result value) (l : list value) :
  (forall page it1 w1, next it w = (Ok page, it1, w1) -> exists l1, page = VList l1) ->
  _items v = VList l ->
  0 <= _position v <= Z.of_nat (length l) ->
  anext next (v, it) w = (r, (v', it'), w') ->
  exists l',
    _items v' = VList l' /\
    0 <= _position v' <= Z.of_nat (length l') /\
    (forall x, r = Ok x ->
               1 <= _position v' /\ l' !! Z.to_nat (_position v' - 1) = Some x).
Proof.
  intros Lists Hl Hp. destruct v as [p items]. cbn in Hl, Hp. subst items.
  unfold anext, bind, self, lift, set_position, set_items, assign, try_except,
    call_iterator_next, ret, raise.
  cbn [fst snd _position _items len].
  destruct (p =? Z.of_nat (length l)) eqn:End.
  - cbn [fst snd _position _items].
    destruct (next it w) as [[[page|e] it1] w1] eqn:E.
    + destruct (Lists page it1 w1 eq_refl) as [l1 ->].
      cbn [fst snd _position _items].
      destruct (getitem_int (VList l1) 0) as [x|e] eqn:G.
      * intros [= <- <- <- <-]. exists l1. cbn.
        apply getitem_int_list_Ok in G as [G1 G2]; [|lia].
        split; [reflexivity|]. split; [lia|]. intros y [= <-]. split; [lia|exact G2].
      * destruct (is_IndexError e); intros [= <- <- <- <-]; exists l1; cbn;
          (split; [reflexivity|]); (split; [lia|]); intros y; discriminate.
    + destruct (is_NoMoreItems e).
      * intros [= <- <- <- <-]. exists []. cbn.
        split; [reflexivity|]. split; [lia|]. intros y; discriminate.
      * intros [= <- <- <- <-]. exists l. cbn.
        split; [reflexivity|]. split; [lia|]. intros y; discriminate.
  - cbn [fst snd _position _items]. apply Z.eqb_neq in End.
    destruct (getitem_int (VList l) p) as [x|e] eqn:G.
    + intros [= <- <- <- <-]. exists l. cbn.
      apply getitem_int_list_Ok in G as [G1 G2]; [|lia].
      split; [reflexivity|]. split; [lia|]. intros y [= <-]. split; [lia|].
      replace (p + 1 - 1) with p by lia. exact G2.
    + destruct (is_IndexError e); intros [= <- <- <- <-]; exists l; cbn;
        (split; [reflexivity|]); (split; [lia|]); intros y; discriminate.
Qed.

End ItemPosition.

(** ** An iterator is spent once [flatten] has returned *)

Section Spent.
Context {Srv : Type}.
Variable respond : Srv -> request -> outcome value * Srv.

(** X7: once [flatten()] has returned on a cursor iterator whose handler,
    if any, does not itself raise [NoMoreItems], the iterator is spent:
    [next()] raises [NoMoreItems], and a second [flatten()] returns the
    empty list, both without a request.  On a page-number iterator with
    such a handler, the server answering identical requests identically,
    a second [flatten()] returns the empty list too, after one more
    request. *)
Theorem flatten_spends_the_iterator (fuel fuel' : nat) :
  (forall (s s' : PageIterator.t) (w w' : world Srv) l,
      Caller.handler_never is_NoMoreItems (PageIterator.handler s) ->
      PageIterator.flatten respond fuel s w = Some (Ok l, s', w') ->
      PageIterator.next respond s' w'
        = (Raise (NoMoreItems "No more items."), s', w') /\
      PageIterator.flatten respond (S fuel') s' w' = Some (Ok [], s', w')) /\
  (Server.stationary respond ->
   forall (s s' : PageNumberIterator.t) (w w' : world Srv) l,
      Caller.handler_never is_NoMoreItems (PageNumberIterator.handler s) ->
      PageNumberIterator.flatten respond fuel s w = Some (Ok l, s', w') ->
      exists w'',
        PageNumberIterator.flatten respond (S fuel') s' w' = Some (Ok [], s', w'') /\
        exists rq, log w'' = log w' ++ [rq]).
Proof.
  split.
  - intros s s' w w' l Q F.
    apply (flatten_loop_ends_exhausted (PageIterator.next respond)
             (fun s0 => PageIterator.handler s0 = PageIterator.handler s))
      in F as (s0 & w0 & e & R & N & E);
      [|intros it w1 r it' w1' H E;
        rewrite (cursor_next_keeps_handler _ _ _ _ _ _ E); exact H
       |reflexivity].
    destruct e; try discriminate. rewrite <- R in Q.
    apply (next_exhausted_guard _ _ _ _ _ _ Q) in E as (St & Cur & -> & ->).
    assert (E : PageIterator.next respond s0 w0
                = (Raise (NoMoreItems "No more items."), s0, w0)).
    { apply next_guarded. rewrite St, Cur. reflexivity. }
    split; [exact E|].
    unfold PageIterator.flatten, Iterator.flatten. cbn.
    unfold Iterator.flatten_step, try_except, bind. rewrite E. reflexivity.
  - intros Stat s s' w w' l Q F.
    apply (flatten_loop_ends_exhausted (PageNumberIterator.next respond)
             (fun s0 => PageNumberIterator.handler s0
                        = PageNumberIterator.handler s))
      in F as (s0 & w0 & e & R & N & E);
      [|intros it w1 r it' w1' H E;
        rewrite (numbered_next_keeps_handler _ _ _ _ _ _ E); exact H
       |reflexivity].
    destruct e; try discriminate. rewrite <- R in Q.
    apply (next_numbered_exhausted_empty _ _ _ _ _ _ Q) in E
      as (-> & data & R' & L).
    destruct (PageNumberIterator.next respond s0 w') as [[r s1] w1] eqn:E.
    pose proof E as E0. rewrite next_numbered in E0. cbn zeta in E0.
    rewrite (Stat (srv w') (srv w0)), R', L in E0. injection E0 as <- <- <-.
    eexists. split.
    + unfold PageNumberIterator.flatten, Iterator.flatten.
      cbn [Iterator.flatten_loop].
      unfold Iterator.flatten_step, try_except, bind. rewrite E. reflexivity.
    + eexists. reflexivity.
Qed.

End Spent.

(** ** The items are the pages, concatenated *)

Section ItemsOfPages.
Context {Srv I : Type}.
Variable next : M (Srv:=Srv) I value.

Import IteratorItems.

(** Inside the buffer [__anext__] yields the item at the position and
    moves one further, without touching the iterator. *)
Lemma anext_buffered (l : list value) (p : nat) (x : value) (it : I)
    (w : world Srv) :
  l !! p = Some x ->
  anext next ({| _position := Z.of_nat p; _items := VList l |}, it) w
    = (Ok x, ({| _position := Z.of_nat (S p); _items := VList l |}, it), w).
Proof.
  intros Hx. pose proof (lookup_lt_Some _ _ _ Hx) as Lt.
  unfold anext, bind, self, lift, set_position, set_items, assign, try_except, ret.
  cbn [fst snd _position _items len].
  destruct (Z.of_nat p =? Z.of_nat (length l)) eqn:C;
    [apply Z.eqb_eq in C; lia|].
  cbn [fst snd _position _items].
  unfold getitem_int, seq_index.
  destruct (0 <=? Z.of_nat p) eqn:A; [|apply Z.leb_gt in A; lia].
  destruct (Z.of_nat p <? Z.of_nat (length l)) eqn:B; [|apply Z.ltb_ge in B; lia].
  cbn [andb]. rewrite Nat2Z.id, Hx. cbn [fst snd _position _items].
  rewrite Nat2Z.inj_succ. reflexivity.
Qed.

(** At the end of the buffer [__anext__] fetches: a non-empty page gives
    its first item, [NoMoreItems] ends the sequence and clears the view. *)
Lemma anext_fetch_page (v : t) (x : value) (xs : list value) (it it' : I)
    (w w' : world Srv) :
  len (_items v) = Ok (_position v) ->
  next it w = (Ok (VList (x :: xs)), it', w') ->
  anext next (v, it) w
    = (Ok x, ({| _position := Z.of_nat 1; _items := VList (x :: xs) |}, it'), w').
Proof.
  intros L E.
  unfold anext, bind, self, lift, set_position, set_items, assign, try_except,
    call_iterator_next, ret.
  cbn [fst snd]. rewrite L. cbn [fst snd]. rewrite Z.eqb_refl.
  cbn [fst snd _position _items]. rewrite E.
  cbn [fst snd _position _items]. rewrite getitem_first. reflexivity.
Qed.

Lemma anext_fetch_stop (v : t) (e : exn) (it it' : I) (w w' : world Srv) :
  len (_items v) = Ok (_position v) ->
  next it w = (Raise e, it', w') ->
  anext next (v, it) w =
    if is_NoMoreItems e
    then (Raise StopAsyncIteration, (init, it'), w')
    else (Raise e, ({| _position := 0; _items := _items v |}, it'), w').
Proof.
  intros L E.
  unfold anext, bind, self, lift, set_position, set_items, assign, try_except,
    call_iterator_next, ret, raise.
  cbn [fst snd]. rewrite L. cbn [fst snd]. rewrite Z.eqb_refl.
  cbn [fst snd _position _items]. rewrite E.
  destruct (is_NoMoreItems e); reflexivity.
Qed.

(** The loop yields what is left of the buffer, item by item. *)
Lemma items_loop_drain (rest : list value) :
  forall (pre acc : list value) (fuel : nat) (it : I) (w : world Srv),
    Traversal.items_loop next (length rest + fuel) acc
        ({| _position := Z.of_nat (length pre);
            _items := VList (pre ++ rest) |}, it) w
    = Traversal.items_loop next fuel (acc ++ rest)
        ({| _position := Z.of_nat (length (pre ++ rest));
            _items := VList (pre ++ rest) |}, it) w.
Proof.
  induction rest as [|x rest IH]; intros pre acc fuel it w.
  - cbn [length Nat.add]. rewrite !app_nil_r. reflexivity.
  - cbn [length Nat.add Traversal.items_loop].
    rewrite (anext_buffered (pre ++ x :: rest) (length pre) x)
      by (rewrite lookup_app_r, Nat.sub_diag by lia; reflexivity).
    specialize (IH (pre ++ [x]) (acc ++ [x]) fuel it w).
    rewrite <- !app_assoc, length_app in IH. cbn [length app] in IH.
    rewrite Nat.add_1_r in IH. exact IH.
Qed.

Lemma items_loop_pages (n : nat) :
  forall (pages : list (list value)) (shown : list value) (it it' : I)
         (w w' : world Srv) (v : t) (acc : list value) (spare : nat),
    IteratorPages.collect_loop next n shown it w
      = Some (Ok (shown ++ map VList pages), it', w') ->
    Forall (fun page => page <> []) pages ->
    len (_items v) = Ok (_position v) ->
    exists v',
      Traversal.items_loop next (length (concat pages) + S spare) acc (v, it) w
        = Some (Ok (acc ++ concat pages), (v', it'), w').
Proof.
  induction n as [|n IH]; intros pages shown it it' w w' v acc spare;
    cbn [IteratorPages.collect_loop]; [discriminate|].
  unfold IteratorPages.anext, try_except.
  destruct (next it w) as [[[page|e] it1] w1] eqn:E.
  - intros C NE L.
    pose proof (collect_loop_prefix _ _ _ _ _ _ _ _ C) as [more Pre].
    rewrite <- app_assoc in Pre. apply app_inv_head in Pre.
    destruct pages as [|l pages]; [discriminate|].
    cbn [map app] in Pre. injection Pre as <- <-.
    inversion NE as [|? ? Hl NE']; subst.
    destruct l as [|x xs]; [congruence|].
    replace (shown ++ map VList ((x :: xs) :: pages))
      with ((shown ++ [VList (x :: xs)]) ++ map VList pages) in C
      by (rewrite <- app_assoc; reflexivity).
    cbn [concat]. rewrite length_app. cbn [length Nat.add].
    cbn [Traversal.items_loop].
    rewrite (anext_fetch_page v x xs it it1 w w1 L E).
    rewrite <- Nat.add_assoc.
    rewrite (items_loop_drain xs [x] (acc ++ [x])).
    cbn [app].
    destruct (IH pages _ it1 it' w1 w'
                {| _position := Z.of_nat (length (x :: xs));
                   _items := VList (x :: xs) |}
                ((acc ++ [x]) ++ xs) spare C NE' eq_refl) as [v' Hv'].
    exists v'. rewrite Hv'. rewrite <- !app_assoc. reflexivity.
  - destruct (is_NoMoreItems e) eqn:N.
    + cbn. intros [= Pre <- <-] _ L.
      rewrite <- (app_nil_r shown) in Pre at 1.
      apply app_inv_head in Pre. destruct pages; [|discriminate].
      cbn [concat length Nat.add Traversal.items_loop].
      rewrite (anext_fetch_stop v e it it1 w w1 L E), N.
      exists init. rewrite app_nil_r. reflexivity.
    + destruct e; try discriminate.
      intros [= Pre <- <-] _ L.
      rewrite <- (app_nil_r shown) in Pre at 1.
      apply app_inv_head in Pre. destruct pages; [|discriminate].
      cbn [concat length Nat.add Traversal.items_loop].
      rewrite (anext_fetch_stop v _ it it1 w w1 L E). cbn.
      eexists. rewrite app_nil_r. reflexivity.
Qed.

(** X8: when the page view runs to its end over pages that are non-empty
    lists, the item view, given one step more than there are items, yields
    exactly the items of those pages, in order, and leaves the iterator and
    the world as the page view does: through [async for item in iterator]
    from a view at the end of its buffer, and through
    [async for item in iterator.items()] from any view. *)
Theorem items_are_the_pages_in_order (n spare : nat)
    (pages : list (list value)) (it it' : I) (w w' : world Srv) (v : t) :
  IteratorPages.collect next n it w = Some (Ok (map VList pages), it', w') ->
  Forall (fun page => page <> []) pages ->
  (len (_items v) = Ok (_position v) ->
   exists v',
     Traversal.items_of_iterator next (length (concat pages) + S spare) (v, it) w
       = Some (Ok (concat pages), (v', it'), w')) /\
  (exists v',
     Traversal.items_of_view next (length (concat pages) + S spare) (v, it) w
       = Some (Ok (concat pages), (v', it'), w')).
Proof.
  unfold IteratorPages.collect, IteratorPages.aiter, ret,
    Traversal.items_of_iterator, Traversal.items_of_view.
  intros C NE. split.
  - intros L. apply (items_loop_pages n pages [] it it' w w' v [] spare C NE L).
  - cbn.
    apply (items_loop_pages n pages [] it it' w w' init [] spare C NE eq_refl).
Qed.

End ItemsOfPages.

(** ** [flatten] against well-behaved endpoints *)

Lemma set_page_number_twice (a b : Z) (s : PageNumberIterator.t) :
  PageNumberIterator.set_page_number a (PageNumberIterator.set_page_number b s)
    = PageNumberIterator.set_page_number a s.
Proof. reflexivity. Qed.

Lemma set_page_number_same (s : PageNumberIterator.t) :
  PageNumberIterator.set_page_number (PageNumberIterator.page_number s) s = s.
Proof. destruct s; reflexivity. Qed.

Lemma drop_cons_inv {A} (l : list A) (i : nat) (x : A) (rest : list A) :
  drop i l = x :: rest -> l !! i = Some x /\ drop (S i) l = rest.
Proof.
  intros D.
  assert (Hx : l !! i = Some x).
  { pose proof (lookup_drop l i 0) as H. rewrite D, Nat.add_0_r in H.
    symmetry. exact H. }
  split; [exact Hx|]. rewrite (drop_S _ _ _ Hx) in D. congruence.
Qed.

Section FlattenSteps.
Context {Srv I : Type}.
Variable next : M (Srv:=Srv) I value.

Lemma flatten_loop_page (fuel : nat) (items l : list value) (it it' : I)
    (w w' : world Srv) :
  next it w = (Ok (VList l), it', w') ->
  Iterator.flatten_loop next (S fuel) items it w
    = Iterator.flatten_loop next fuel (items ++ l) it' w'.
Proof.
  intros E. cbn [Iterator.flatten_loop].
  unfold Iterator.flatten_step, try_except, bind, lift, ret. rewrite E.
  reflexivity.
Qed.

Lemma flatten_loop_end (fuel : nat) (items : list value) (msg : string)
    (it it' : I) (w w' : world Srv) :
  next it w = (Raise (NoMoreItems msg), it', w') ->
  Iterator.flatten_loop next (S fuel) items it w = Some (Ok items, it', w').
Proof.
  intros E. cbn [Iterator.flatten_loop].
  unfold Iterator.flatten_step, try_except, bind, lift, ret. rewrite E.
  reflexivity.
Qed.

End FlattenSteps.

Section NumberedEndpoint.
Context {Srv : Type}.
Variable respond : Srv -> request -> outcome value * Srv.
Variable table : list (list value).
Hypothesis serves : Endpoint.serves_table respond table.
Hypothesis pages_not_empty : Forall (fun page => page <> []) table.

Import PageNumberIterator.

(** One call against the endpoint, at page [i + 1]. *)
Lemma next_table (i : nat) (s : t) (w : world Srv) :
  page_number s = Z.of_nat (S i) ->
  handler s = None ->
  extra_parameters s !! "pageNumber" = None ->
  exists w',
    Endpoint.sent "pageNumber" w'
      = Endpoint.sent "pageNumber" w ++ [Some (VInt (Z.of_nat (S i)))] /\
    next respond s w =
      match table !! i with
      | Some page => (Ok (VList page), set_page_number (Z.of_nat (S (S i))) s, w')
      | None => (Raise (NoMoreItems "No more items."), s, w')
      end.
Proof.
  intros Pn Hh Ex. rewrite next_numbered. cbn zeta.
  rewrite (serves _ _ (page_number s)), Pn
    by (try apply params_pageNumber; auto; lia).
  replace (Z.to_nat (Z.of_nat (S i) - 1)) with i by lia.
  exists {| srv := snd (respond (srv w)
                     {| req_url := url s; req_params := params s |});
            log := log w ++ [{| req_url := url s; req_params := params s |}] |}.
  split.
  - unfold Endpoint.sent. cbn [log]. rewrite map_app. cbn [map req_params].
    rewrite params_pageNumber, Pn by exact Ex. reflexivity.
  - destruct (table !! i) as [page|] eqn:Hp; unfold default; cbn [from_option id len].
    + assert (NE : page <> []).
      { rewrite Forall_forall in pages_not_empty. apply pages_not_empty.
        eapply list_elem_of_lookup_2, Hp. }
      destruct (Z.of_nat (length page) =? 0) eqn:Z0.
      { apply Z.eqb_eq in Z0. destruct page; [congruence|cbn in Z0; lia]. }
      rewrite Hh. cbn [apply_handler]. do 2 f_equal.
      f_equal. lia.
    + reflexivity.
Qed.

Lemma flatten_loop_table (rest : list (list value)) :
  forall (i : nat) (s : t) (w : world Srv) (items : list value),
    drop i table = rest ->
    (i <= length table)%nat ->
    page_number s = Z.of_nat (S i) ->
    handler s = None ->
    extra_parameters s !! "pageNumber" = None ->
    exists w',
      Iterator.flatten_loop (next respond) (S (length rest)) items s w
        = Some (Ok (items ++ concat rest),
                set_page_number (Z.of_nat (S (length table))) s, w') /\
      Endpoint.sent "pageNumber" w'
        = Endpoint.sent "pageNumber" w
            ++ map (fun n => Some (VInt (Z.of_nat n))) (seq (S i) (S (length rest))).
Proof.
  induction rest as [|page rest IH]; intros i s w items D Le Pn Hh Ex;
    destruct (next_table i s w Pn Hh Ex) as (w1 & Sent1 & E).
  - assert (i = length table) as ->.
    { apply (f_equal length) in D. rewrite length_drop in D. cbn in D. lia. }
    rewrite lookup_ge_None_2 in E by lia.
    exists w1. split; [|exact Sent1].
    rewrite (flatten_loop_end _ _ _ _ _ _ _ _ E).
    rewrite app_nil_r, <- Pn, set_page_number_same. reflexivity.
  - apply drop_cons_inv in D as [Hp D]. rewrite Hp in E.
    pose proof (lookup_lt_Some _ _ _ Hp) as Lt.
    destruct (IH (S i) (set_page_number (Z.of_nat (S (S i))) s) w1
                (items ++ page) D) as (w' & F & Sent);
      [lia|reflexivity|exact Hh|exact Ex|].
    exists w'. split.
    + cbn [length]. rewrite (flatten_loop_page _ _ _ _ _ _ _ _ E), F.
      rewrite set_page_number_twice, <- app_assoc. reflexivity.
    + rewrite Sent, Sent1, <- app_assoc. reflexivity.
Qed.

(** X9: against any server that behaves as a numbered-pages endpoint over a
    table of non-empty pages, [flatten()] on an iterator at page 1 with no
    handler returns the items of the whole table in order, after one fetch
    per page plus the one that finds the empty page; the fetches ask for
    pages 1, 2, ... in turn, and [page_number] is left one past the
    table. *)
Theorem flatten_reads_the_whole_table (s : t) (w : world Srv) :
  page_number s = 1 ->
  handler s = None ->
  extra_parameters s !! "pageNumber" = None ->
  exists w',
    flatten respond (S (length table)) s w
      = Some (Ok (concat table),
              set_page_number (Z.of_nat (S (length table))) s, w') /\
    Endpoint.sent "pageNumber" w'
      = Endpoint.sent "pageNumber" w
          ++ map (fun n => Some (VInt (Z.of_nat n))) (seq 1 (S (length table))).
Proof.
  intros Pn Hh Ex.
  apply (flatten_loop_table table 0 s w []); auto. lia.
Qed.

End NumberedEndpoint.

Section CursorEndpoint.

Import PageIterator.

(** One call against a scripted cursor endpoint about to serve [e]. *)
Lemma next_scripted (e : Endpoint.cursor_entry)
    (script : list (outcome value)) (s : t)
    (w : world (list (outcome value))) :
  next_started s && negb (truthy (next_cursor s)) = false ->
  handler s = None ->
  srv w = Endpoint.cursor_script [e] ++ script ->
  next Server.scripted s w
    = (Ok (VList (Endpoint.entry_data e)),
       set_previous_cursor (fst (fst e))
         (set_next_cursor (Endpoint.entry_next e) (set_next_started true s)),
       {| srv := script;
          log := log w ++ [{| req_url := url s; req_params := params s |}] |}).
Proof.
  intros G Hh Hs. rewrite next_fetches by exact G. cbn zeta.
  rewrite Hs, Hh. reflexivity.
Qed.

Lemma flatten_loop_script (front : list Endpoint.cursor_entry)
    (last : Endpoint.cursor_entry) :
  Forall (fun e => truthy (Endpoint.entry_next e) = true) front ->
  truthy (Endpoint.entry_next last) = false ->
  forall (s : t) (w : world (list (outcome value))) (items : list value),
    next_started s && negb (truthy (next_cursor s)) = false ->
    handler s = None ->
    extra_parameters s !! "cursor" = None ->
    srv w = Endpoint.cursor_script (front ++ [last]) ->
    exists s' w',
      Iterator.flatten_loop (next Server.scripted)
          (S (length (front ++ [last]))) items s w
        = Some (Ok (items ++ concat (map Endpoint.entry_data (front ++ [last]))),
                s', w') /\
      next_started s' = true /\
      next_cursor s' = Endpoint.entry_next last /\
      srv w' = [] /\
      Endpoint.sent "cursor" w'
        = Endpoint.sent "cursor" w
            ++ Some (next_cursor s)
               :: map (fun e => Some (Endpoint.entry_next e)) front.
Proof.
  intros F Last. induction F as [|e front He F IH]; intros s w items G Hh Ex Hs.
  - cbn [app length] in *.
    pose proof (next_scripted last [] s w G Hh Hs) as E.
    rewrite (flatten_loop_page _ _ _ _ _ _ _ _ E).
    match goal with
    | |- context [Iterator.flatten_loop _ _ _ ?s1 ?w1] =>
        assert (E1 : next Server.scripted s1 w1
                     = (Raise (NoMoreItems "No more items."), s1, w1))
          by (apply next_guarded; cbn; rewrite Last; reflexivity)
    end.
    rewrite (flatten_loop_end _ 0 _ _ _ _ _ _ E1).
    eexists _, _. split; [cbn; rewrite app_nil_r; reflexivity|].
    split; [reflexivity|]. split; [reflexivity|]. split; [reflexivity|].
    unfold Endpoint.sent. cbn [log]. rewrite map_app. cbn [map req_params].
    rewrite params_cursor by exact Ex. reflexivity.
  - cbn [app length] in *.
    pose proof (next_scripted e _ s w G Hh Hs) as E.
    rewrite (flatten_loop_page _ _ _ _ _ _ _ _ E).
    match goal with
    | |- context [Iterator.flatten_loop _ _ _ ?s1 ?w1] =>
        destruct (IH s1 w1 (items ++ Endpoint.entry_data e))
          as (s' & w' & Fl & St & Cur & Sv & Sent);
          [cbn; rewrite He; reflexivity|exact Hh|exact Ex|reflexivity|]
    end.
    exists s', w'. split; [|split; [exact St|split; [exact Cur|split; [exact Sv|]]]].
    + rewrite Fl. cbn [map concat]. rewrite <- app_assoc. reflexivity.
    + rewrite Sent. unfold Endpoint.sent. cbn [log]. rewrite map_app.
      cbn [map req_params]. rewrite params_cursor by exact Ex.
      rewrite <- app_assoc. reflexivity.
Qed.

(** X10: against a cursor endpoint that serves a fixed run of pages, each but
    the last with a truthy next cursor and the last with a falsy one,
    [flatten()] on an iterator with no handler whose guard does not fire
    returns the items of all the pages in order, after one fetch per page;
    the first fetch sends the cursor the iterator held and every later one
    the cursor the page before it gave. *)
Theorem flatten_follows_the_cursors (front : list Endpoint.cursor_entry)
    (last : Endpoint.cursor_entry) (s : t) (w : world (list (outcome value))) :
  Forall (fun e => truthy (Endpoint.entry_next e) = true) front ->
  truthy (Endpoint.entry_next last) = false ->
  next_started s && negb (truthy (next_cursor s)) = false ->
  handler s = None ->
  extra_parameters s !! "cursor" = None ->
  srv w = Endpoint.cursor_script (front ++ [last]) ->
  exists s' w',
    flatten Server.scripted (S (length (front ++ [last]))) s w
      = Some (Ok (concat (map Endpoint.entry_data (front ++ [last]))), s', w') /\
    next_started s' = true /\
    next_cursor s' = Endpoint.entry_next last /\
    srv w' = [] /\
    Endpoint.sent "cursor" w'
      = Endpoint.sent "cursor" w
          ++ Some (next_cursor s)
             :: map (fun e => Some (Endpoint.entry_next e)) front.
Proof.
  intros F Last G Hh Ex Hs.
  apply (flatten_loop_script front last F Last s w [] G Hh Ex Hs).
Qed.

End CursorEndpoint.

(** * Properties of the resource classes *)

(** ** Iterators handed out by [BaseGroup] and [BaseUniverse] *)

Section Factories.
Context {Srv : Type}.
Variable respond : Srv -> request -> outcome value * Srv.
Variable get_url : string -> string -> string.
Variable Badge GamePass UniverseSocialLink : value -> outcome value.
Variable Member WallPost JoinRequest Role : Z -> value -> outcome value.

(** A handler made of one of the library's constructors fails with the
    constructor's failure only. *)
Lemma constructor_handler_never (kind : exn -> bool)
    (ctor : value -> outcome value) :
  (forall name, kind (Foreign name) = false) ->
  Caller.handler_never kind (Some (fun _ data => of_outcome (ctor data))).
Proof.
  intros K f kw item e [= <-]. destruct (ctor item); cbn; [discriminate|].
  intros [= <-]. apply K.
Qed.

(** The first call on an iterator as [PageIterator.__init__] builds it
    without extra parameters: one request, with exactly the three fixed
    parameters and the empty cursor, and no exhaustion unless the handler
    raises it. *)
Lemma constructed_iterator_first_call (u : string) (so : SortOrder.t)
    (lim : Z) (h : option Handler) (w : world Srv) :
  Caller.handler_never is_NoMoreItems h ->
  exists r s' w',
    PageIterator.next respond (PageIterator.init u so lim None h None) w
      = (r, s', w') /\
    ~ Caller.exhausted r /\
    PageIterator.next_started s' = true /\
    log w' = log w ++
      [{| req_url := u;
          req_params := {[ "cursor" := VStr "";
                           "limit" := VInt lim;
                           "sortOrder" := VStr (SortOrder.value so) ]} |}].
Proof.
  intros Q.
  destruct (PageIterator.next respond (PageIterator.init u so lim None h None) w)
    as [[r s'] w'] eqn:E.
  exists r, s', w'. split; [reflexivity|]. split.
  { intros [msg ->].
    apply (next_exhausted_guard respond
             (PageIterator.init u so lim None h None) _ _ _ _ Q) in E
      as (St & _).
    discriminate St. }
  apply cursor_next_step in E
    as (_ & _ & _ & _ & _ & _ & _ & _ & _ & [[St _]|(_ & St & _ & Lg)]).
  - discriminate St.
  - split; [exact St|]. rewrite Lg. unfold PageIterator.params. cbn.
    rewrite (left_id_L ∅ (∪)). reflexivity.
Qed.

(** X11: every iterator [BaseGroup] and [BaseUniverse] hand out starts from
    the beginning: its first [next()] sends one request to the resource's
    URL with the empty cursor, the requested limit (10 by default) and sort
    order (ascending by default, and always for the universe's badges and
    game passes), and nothing else; it never signals exhaustion. *)
Theorem resource_iterators_start_fresh (self_id : Z)
    (sort_order : option SortOrder.t) (limit : option Z) (w : world Srv) :
  let first_call (path : string * string) (so : SortOrder.t) (it : PageIterator.t) :=
    exists r s' w',
      PageIterator.next respond it w = (r, s', w') /\
      ~ Caller.exhausted r /\
      log w' = log w ++
        [{| req_url := get_url (fst path) (snd path);
            req_params := {[ "cursor" := VStr "";
                             "limit" := VInt (default 10 limit);
                             "sortOrder" := VStr (SortOrder.value so) ]} |}] in
  first_call ("groups", "v1/groups/" +:+ pretty self_id +:+ "/users")
    (default SortOrder.Ascending sort_order)
    (BaseGroup.get_members get_url Member self_id sort_order limit) /\
  first_call ("groups", "v2/groups/" +:+ pretty self_id +:+ "/wall/posts")
    (default SortOrder.Ascending sort_order)
    (BaseGroup.get_wall_posts get_url WallPost self_id sort_order limit) /\
  first_call ("groups", "v1/groups/" +:+ pretty self_id +:+ "/join-requests")
    (default SortOrder.Ascending sort_order)
    (BaseGroup.get_join_requests get_url JoinRequest self_id sort_order limit) /\
  first_call ("badges", "v1/universes/" +:+ pretty self_id +:+ "/badges")
    SortOrder.Ascending
    (BaseUniverse.get_badges get_url Badge self_id limit) /\
  first_call ("games", "v1/games/" +:+ pretty self_id +:+ "/game-passes")
    SortOrder.Ascending
    (BaseUniverse.get_gamepasses get_url GamePass self_id limit).
Proof.
  cbn zeta.
  assert (K : forall u so (ctor : value -> outcome value),
    exists r s' w',
      PageIterator.next respond
        (PageIterator.init u so (default 10 limit) None
           (Some (fun _ data => of_outcome (ctor data))) None) w = (r, s', w') /\
      ~ Caller.exhausted r /\
      log w' = log w ++
        [{| req_url := u;
            req_params := {[ "cursor" := VStr "";
                             "limit" := VInt (default 10 limit);
                             "sortOrder" := VStr (SortOrder.value so) ]} |}]).
  { intros u so ctor.
    destruct (constructed_iterator_first_call u so (default 10 limit)
                (Some (fun _ data => of_outcome (ctor data))) w)
      as (r & s' & w' & E & N & _ & Lg).
    - apply constructor_handler_never. reflexivity.
    - eauto 10. }
  split; [apply (K _ _ (Member self_id))|].
  split; [apply (K _ _ (WallPost self_id))|].
  split; [apply (K _ _ (JoinRequest self_id))|].
  split; [apply (K _ _ Badge)|apply (K _ _ GamePass)].
Qed.

(** ** One-shot reads *)

Lemma get_json_once {A} (u : string) (k : value -> result A) (w : world Srv) :
  BaseUniverse.get_json respond u k w =
    (match fst (respond (srv w) {| req_url := u; req_params := ∅ |}) with
     | Returns body => k body
     | Fails name => Raise (Foreign name)
     end,
     {| srv := snd (respond (srv w) {| req_url := u; req_params := ∅ |});
        log := log w ++ [{| req_url := u; req_params := ∅ |}] |}).
Proof.
  unfold BaseUniverse.get_json, requests_get.
  destruct (respond (srv w) _) as [[body|name] a]; reflexivity.
Qed.

(** X12: [get_join_request] answers [None] for every falsy body ([null], an
    empty object, ...) without consulting the [JoinRequest] constructor, so
    that no failure of the constructor can surface then; on a truthy body it
    answers what the constructor built, or [None] if that object is itself
    falsy, and passes the constructor's failure on. *)
Theorem join_request_of_falsy_body_is_none (self_id user : Z)
    (w : world Srv) (body : value) :
  fst (respond (srv w)
         {| req_url := get_url "groups"
              ("v1/groups/" +:+ pretty self_id +:+ "/join-requests/users/"
                 +:+ pretty user);
            req_params := ∅ |}) = Returns body ->
  (truthy body = false ->
   forall ctor : Z -> value -> outcome value,
     fst (BaseGroup.get_join_request respond get_url ctor self_id user w)
       = Ok VNone) /\
  (truthy body = true ->
   fst (BaseGroup.get_join_request respond get_url JoinRequest self_id user w)
     = match JoinRequest self_id body with
       | Returns request => Ok (if truthy request then request else VNone)
       | Fails name => Raise (Foreign name)
       end).
Proof.
  intros R. split.
  - intros T ctor. unfold BaseGroup.get_join_request.
    rewrite get_json_once. cbn [fst]. rewrite R, T. reflexivity.
  - intros T. unfold BaseGroup.get_join_request.
    rewrite get_json_once. cbn [fst]. rewrite R, T.
    destruct (JoinRequest self_id body) as [request|name]; cbn; [|reflexivity].
    destruct (truthy request); reflexivity.
Qed.

(** X13: [get_roles] and [get_social_links] send one GET and, when they
    return, return one object per record of the body's [roles] (resp.
    [data]) array, built from that record and in the array's order; a body
    without the key is a [KeyError]. *)
Theorem listings_keep_the_order_of_the_body (self_id : Z) (w : world Srv) :
  (forall r w',
      BaseGroup.get_roles respond get_url Role self_id w = (r, w') ->
      (exists rq, log w' = log w ++ [rq] /\ req_params rq = ∅) /\
      (forall d, fst (respond (srv w)
                    {| req_url := get_url "groups"
                         ("v1/groups/" +:+ pretty self_id +:+ "/roles");
                       req_params := ∅ |}) = Returns (VDict d) ->
                 assoc "roles" d = None ->
                 r = Raise (KeyError (VStr "roles"))) /\
      (forall body roles,
          fst (respond (srv w)
                 {| req_url := get_url "groups"
                      ("v1/groups/" +:+ pretty self_id +:+ "/roles");
                    req_params := ∅ |}) = Returns body ->
          r = Ok roles ->
          exists raw records objs,
            getitem_str body "roles" = Ok raw /\ iter raw = Ok records /\
            roles = VList objs /\
            Forall2 (fun record obj => Role self_id record = Returns obj)
              records objs)) /\
  (forall r w',
      BaseUniverse.get_social_links respond get_url UniverseSocialLink self_id w
        = (r, w') ->
      (exists rq, log w' = log w ++ [rq] /\ req_params rq = ∅) /\
      (forall body links,
          fst (respond (srv w)
                 {| req_url := get_url "games"
                      ("v1/games/" +:+ pretty self_id +:+ "/social-links/list");
                    req_params := ∅ |}) = Returns body ->
          r = Ok links ->
          exists raw records objs,
            getitem_str body "data" = Ok raw /\ iter raw = Ok records /\
            links = VList objs /\
            Forall2 (fun record obj => UniverseSocialLink record = Returns obj)
              records objs)).
Proof.
  assert (K : forall (c : value -> outcome value) (raw page : value),
    apply_handler (Some (fun _ x => of_outcome (c x))) ∅ raw = Ok page ->
    exists records objs,
      iter raw = Ok records /\ page = VList objs /\
      Forall2 (fun record obj => c record = Returns obj) records objs).
  { intros c raw page. unfold apply_handler.
    destruct (iter raw) as [records|e]; [|discriminate].
    destruct (mapM _ records) as [objs|e] eqn:E; [|discriminate].
    intros [= <-]. exists records, objs. split; [reflexivity|].
    split; [reflexivity|].
    apply mapM_Forall2 in E. eapply Forall2_impl; [exact E|].
    cbn. intros x y. destruct (c x); cbn; congruence. }
  split; intros r w'.
  - unfold BaseGroup.get_roles. rewrite get_json_once. intros [= <- <-].
    split; [eexists; split; reflexivity|]. split.
    + intros d R Hd. rewrite R. cbn. rewrite Hd. reflexivity.
    + intros body roles R. rewrite R.
      destruct (getitem_str body "roles") as [raw|e]; [|discriminate].
      intros A. apply K in A as (records & objs & ? & ? & ?). eauto 10.
  - unfold BaseUniverse.get_social_links. rewrite get_json_once. intros [= <- <-].
    split; [eexists; split; reflexivity|].
    intros body links R. rewrite R.
    destruct (getitem_str body "data") as [raw|e]; [|discriminate].
    intros A. apply K in A as (records & objs & ? & ? & ?). eauto 10.
Qed.

(** X14: [GroupSettings] and [UniverseLiveStats] are built exactly from the
    bodies that are objects holding every one of their keys, and then each
    attribute is the value under its key. *)
Theorem settings_and_stats_need_every_key (data : value) :
  (forall st,
      BaseUniverse.UniverseLiveStats_init data = Ok st <->
      exists d,
        data = VDict d /\
        assoc "totalPlayerCount" d = Some (BaseUniverse.total_player_count st) /\
        assoc "gameCount" d = Some (BaseUniverse.game_count st) /\
        assoc "playerCountsByDeviceType" d
          = Some (BaseUniverse.player_counts_by_device_type st)) /\
  (forall gs,
      BaseGroup.GroupSettings_init data = Ok gs <->
      exists d,
        data = VDict d /\
        assoc "isApprovalRequired" d = Some (BaseGroup.is_approval_required gs) /\
        assoc "isBuildersClubRequired" d
          = Some (BaseGroup.is_builders_club_required gs) /\
        assoc "areEnemiesAllowed" d = Some (BaseGroup.are_enemies_allowed gs) /\
        assoc "areGroupFundsVisible" d
          = Some (BaseGroup.are_group_funds_visible gs) /\
        assoc "areGroupGamesVisible" d
          = Some (BaseGroup.are_group_games_visible gs) /\
        assoc "isGroupNameChangeEnabled" d
          = Some (BaseGroup.is_group_name_change_enabled gs) /\
        assoc "canChangeGroupName" d = Some (BaseGroup.can_change_group_name gs)).
Proof.
  split.
  - intros st. unfold BaseUniverse.UniverseLiveStats_init. split.
    + destruct data as [| | | | |d|]; try discriminate. cbn.
      destruct (assoc "totalPlayerCount" d) eqn:?; [|discriminate].
      destruct (assoc "gameCount" d) eqn:?; [|discriminate].
      destruct (assoc "playerCountsByDeviceType" d) eqn:?; [|discriminate].
      intros [= <-]. exists d. cbn. repeat split; assumption.
    + intros (d & -> & A & B & C). cbn. rewrite A, B, C. destruct st; reflexivity.
  - intros gs. unfold BaseGroup.GroupSettings_init. split.
    + destruct data as [| | | | |d|]; try discriminate. cbn.
      destruct (assoc "isApprovalRequired" d) eqn:?; [|discriminate].
      destruct (assoc "isBuildersClubRequired" d) eqn:?; [|discriminate].
      destruct (assoc "areEnemiesAllowed" d) eqn:?; [|discriminate].
      destruct (assoc "areGroupFundsVisible" d) eqn:?; [|discriminate].
      destruct (assoc "areGroupGamesVisible" d) eqn:?; [|discriminate].
      destruct (assoc "isGroupNameChangeEnabled" d) eqn:?; [|discriminate].
      destruct (assoc "canChangeGroupName" d) eqn:?; [|discriminate].
      intros [= <-]. exists d. cbn. repeat split; assumption.
    + intros (d & -> & A & B & C & D & E & F & G). cbn.
      rewrite A, B, C, D, E, F, G. destruct gs; reflexivity.
Qed.

(** X15: the one-shot reads [get_favorite_count], [is_favorited],
    [get_live_stats] and [get_settings] each send exactly one GET, without
    query parameters, whatever comes back; they return a value exactly when
    the transport returned an object that holds the key they read (resp. a
    body their constructor accepts), and that value is what the body holds
    there. *)
Theorem one_shot_reads (self_id : Z) (w : world Srv) :
  let once (u : string) (w' : world Srv) :=
    log w' = log w ++ [{| req_url := u; req_params := ∅ |}] in
  let body_of (u : string) :=
    fst (respond (srv w) {| req_url := u; req_params := ∅ |}) in
  (forall r w',
      BaseUniverse.get_favorite_count respond get_url self_id w = (r, w') ->
      let u := get_url "games"
                 ("v1/games/" +:+ pretty self_id +:+ "/favorites/count") in
      once u w' /\
      forall v, r = Ok v <->
                exists d, body_of u = Returns (VDict d) /\
                          assoc "favoritesCount" d = Some v) /\
  (forall r w',
      BaseUniverse.is_favorited respond get_url self_id w = (r, w') ->
      let u := get_url "games"
                 ("v1/games/" +:+ pretty self_id +:+ "/favorites") in
      once u w' /\
      forall v, r = Ok v <->
                exists d, body_of u = Returns (VDict d) /\
                          assoc "isFavorited" d = Some v) /\
  (forall r w',
      BaseUniverse.get_live_stats respond get_url self_id w = (r, w') ->
      let u := get_url "develop"
                 ("v1/universes/" +:+ pretty self_id +:+ "/live-stats") in
      once u w' /\
      forall st, r = Ok st <->
                 exists body, body_of u = Returns body /\
                              BaseUniverse.UniverseLiveStats_init body = Ok st) /\
  (forall r w',
      BaseGroup.get_settings respond get_url self_id w = (r, w') ->
      let u := get_url "groups"
                 ("v1/groups/" +:+ pretty self_id +:+ "/settings") in
      once u w' /\
      forall gs, r = Ok gs <->
                 exists body, body_of u = Returns body /\
                              BaseGroup.GroupSettings_init body = Ok gs).
Proof.
  cbn zeta.
  assert (Key : forall (body : outcome value) (k : string) (v : value),
    match body with
    | Returns b => getitem_str b k
    | Fails name => Raise (Foreign name)
    end = Ok v <->
    exists d, body = Returns (VDict d) /\ assoc k d = Some v).
  { intros body k v. split.
    - destruct body as [b|name]; [|discriminate].
      destruct b as [| | | | |d|]; try discriminate. cbn.
      destruct (assoc k d) eqn:A; [|discriminate]. intros [= <-]. eauto.
    - intros (d & -> & A). cbn. rewrite A. reflexivity. }
  assert (Built : forall {A} (body : outcome value) (k : value -> result A) (a : A),
    match body with
    | Returns b => k b
    | Fails name => Raise (Foreign name)
    end = Ok a <->
    exists b, body = Returns b /\ k b = Ok a).
  { intros A body k a. split.
    - destruct body as [b|name]; [eauto|discriminate].
    - intros (b & -> & E). exact E. }
  split; [|split; [|split]]; intros r w';
    unfold BaseUniverse.get_favorite_count, BaseUniverse.is_favorited,
      BaseUniverse.get_live_stats, BaseGroup.get_settings;
    rewrite get_json_once; intros [= <- <-];
    (split; [reflexivity|]); intros x; first [apply Key | apply Built].
Qed.

End Factories.

(** ** The further properties at work *)


Lemma cursor_calls_keep_configuration_witness :
  exists rs s' w',
    Caller.calls (PageIterator.next Server.scripted) 4 Fixture.members
        (Fixture.fresh_world Fixture.script_two_pages) = (rs, s', w') /\
    PageIterator.url s' = PageIterator.url Fixture.members /\
    PageIterator.limit s' = PageIterator.limit Fixture.members /\
    length rs = 4%nat /\
    exists sent,
      log w' = sent /\ (length sent <= 4)%nat.
Proof.
  eexists _, _, _. split; [reflexivity|].
  destruct (cursor_calls_keep_configuration Server.scripted 4 Fixture.members _
              (Fixture.fresh_world Fixture.script_two_pages) _ _ eq_refl)
    as (U & _ & L & _ & _ & _ & _ & Len & sent & Lg & Le & _).
  split; [exact U|]. split; [exact L|]. split; [exact Len|].
  exists sent. split; [exact Lg|exact Le].
Defined.

Lemma numbered_calls_only_advance_witness :
  exists rs s' w',
    Caller.calls (PageNumberIterator.next (Server.numbered Fixture.chat_table))
        5 Fixture.chat (Fixture.fresh_world tt) = (rs, s', w') /\
    1 <= PageNumberIterator.page_number s' <= 1 + 5 /\
    exists sent, log w' = sent /\ length sent = 5%nat.
Proof.
  eexists _, _, _. split; [reflexivity|].
  destruct (numbered_calls_only_advance (Server.numbered Fixture.chat_table) 5
              Fixture.chat _ (Fixture.fresh_world tt) _ _ eq_refl)
    as (_ & Le & sent & Lg & Len & _).
  split; [exact Le|]. exists sent. split; [exact Lg|exact Len].
Defined.

Lemma other_failures_pass_through_witness :
  exists it' w',
    PageIterator.next Server.scripted Fixture.members (Fixture.fresh_world [])
      = (Raise (Foreign "ConnectionError"), it', w') /\
    Iterator.flatten_loop (PageIterator.next Server.scripted) 3
        [VInt 1; VInt 2] Fixture.members (Fixture.fresh_world [])
      = Some (Raise (Foreign "ConnectionError"), it', w') /\
    IteratorPages.anext (PageIterator.next Server.scripted) Fixture.members
        (Fixture.fresh_world [])
      = (Raise (Foreign "ConnectionError"), it', w').
Proof.
  eexists _, _. split; [reflexivity|].
  destruct (other_failures_pass_through (PageIterator.next Server.scripted)
              (Foreign "ConnectionError") Fixture.members _
              (Fixture.fresh_world []) _ eq_refl eq_refl) as [F P].
  split; [apply (F 2%nat)|exact P].
Defined.

Lemma failed_fetch_replays_buffer_witness :
  exists it' w',
    IteratorItems.anext (PageIterator.next Server.scripted)
        (Sample.view_at_end, Fixture.members) (Fixture.fresh_world [])
      = (Raise (Foreign "ConnectionError"),
         ({| IteratorItems._position := 0;
             IteratorItems._items := VList [VInt 1; VInt 2] |}, it'), w') /\
    IteratorItems.anext (PageIterator.next Server.scripted)
        ({| IteratorItems._position := 0;
            IteratorItems._items := VList [VInt 1; VInt 2] |}, it') w'
      = (Ok (VInt 1),
         ({| IteratorItems._position := 1;
             IteratorItems._items := VList [VInt 1; VInt 2] |}, it'), w').
Proof.
  eexists _, _.
  destruct (failed_fetch_replays_buffer (PageIterator.next Server.scripted)
              (Foreign "ConnectionError") (VInt 1) [VInt 2] Fixture.members _
              (Fixture.fresh_world []) _ eq_refl eq_refl) as [Fail Replay].
  split; [exact Fail|apply Replay].
Defined.

Lemma item_position_stays_in_buffer_witness :
  exists r v' it' w',
    IteratorItems.anext (PageIterator.next Server.scripted)
        (IteratorItems.init, Fixture.members)
        (Fixture.fresh_world Fixture.script_two_pages) = (r, (v', it'), w') /\
    exists l',
      IteratorItems._items v' = VList l' /\
      0 <= IteratorItems._position v' <= Z.of_nat (length l') /\
      (forall x, r = Ok x ->
                 1 <= IteratorItems._position v' /\
                 l' !! Z.to_nat (IteratorItems._position v' - 1) = Some x).
Proof.
  eexists _, _, _, _. split; [reflexivity|].
  eapply (item_position_stays_in_buffer (PageIterator.next Server.scripted)
            IteratorItems.init _ Fixture.members _
            (Fixture.fresh_world Fixture.script_two_pages) _ _ []).
  - intros page it1 w1 H. vm_compute in H. injection H as <- _ _.
    eexists. reflexivity.
  - reflexivity.
  - cbn. lia.
  - reflexivity.
Defined.

Lemma flatten_spends_the_iterator_witness :
  Caller.handler_never is_NoMoreItems (PageIterator.handler Fixture.members) /\
  exists l s' w',
    PageIterator.flatten Server.scripted 3 Fixture.members
        (Fixture.fresh_world Fixture.script_two_pages) = Some (Ok l, s', w') /\
    PageIterator.next Server.scripted s' w'
      = (Raise (NoMoreItems "No more items."), s', w') /\
    PageIterator.flatten Server.scripted 1 s' w' = Some (Ok [], s', w').
Proof.
  assert (Q : Caller.handler_never is_NoMoreItems
                (PageIterator.handler Fixture.members))
    by (intros f kw item e H; discriminate H).
  split; [exact Q|].
  eexists _, _, _. split; [reflexivity|].
  apply (proj1 (flatten_spends_the_iterator Server.scripted 3 0)
           Fixture.members _ (Fixture.fresh_world Fixture.script_two_pages) _ _
           Q eq_refl).
Defined.

Lemma items_are_the_pages_in_order_witness :
  exists it' w',
    IteratorPages.collect (PageIterator.next Server.scripted) 3 Fixture.members
        (Fixture.fresh_world Fixture.script_two_pages)
      = Some (Ok (map VList [[VInt 1; VInt 2; VInt 3]; [VInt 4; VInt 5]]),
              it', w') /\
    (exists v',
       Traversal.items_of_iterator (PageIterator.next Server.scripted) 6
           (IteratorItems.init, Fixture.members)
           (Fixture.fresh_world Fixture.script_two_pages)
         = Some (Ok [VInt 1; VInt 2; VInt 3; VInt 4; VInt 5], (v', it'), w')) /\
    (exists v',
       Traversal.items_of_view (PageIterator.next Server.scripted) 6
           (Sample.view_at_end, Fixture.members)
           (Fixture.fresh_world Fixture.script_two_pages)
         = Some (Ok [VInt 1; VInt 2; VInt 3; VInt 4; VInt 5], (v', it'), w')).
Proof.
  eexists _, _. split; [reflexivity|].
  assert (NE : Forall (fun page : list value => page <> [])
                 [[VInt 1; VInt 2; VInt 3]; [VInt 4; VInt 5]])
    by (repeat constructor; discriminate).
  split.
  - apply (proj1 (items_are_the_pages_in_order
                    (PageIterator.next Server.scripted) 3 0
                    [[VInt 1; VInt 2; VInt 3]; [VInt 4; VInt 5]]
                    Fixture.members _
                    (Fixture.fresh_world Fixture.script_two_pages) _
                    IteratorItems.init eq_refl NE)).
    reflexivity.
  - apply (proj2 (items_are_the_pages_in_order
                    (PageIterator.next Server.scripted) 3 0
                    [[VInt 1; VInt 2; VInt 3]; [VInt 4; VInt 5]]
                    Fixture.members _
                    (Fixture.fresh_world Fixture.script_two_pages) _
                    Sample.view_at_end eq_refl NE)).
Defined.

Lemma flatten_reads_the_whole_table_witness :
  Endpoint.serves_table (Server.numbered Fixture.chat_table) Fixture.chat_table /\
  exists w',
    PageNumberIterator.flatten (Server.numbered Fixture.chat_table) 3
        Fixture.chat (Fixture.fresh_world tt)
      = Some (Ok [VInt 1; VInt 2; VInt 3],
              PageNumberIterator.set_page_number 3 Fixture.chat, w') /\
    Endpoint.sent "pageNumber" w'
      = [Some (VInt 1); Some (VInt 2); Some (VInt 3)].
Proof.
  assert (S : Endpoint.serves_table (Server.numbered Fixture.chat_table)
                Fixture.chat_table).
  { intros [] rq n H Hn. unfold Server.numbered. rewrite H.
    destruct (1 <=? n) eqn:C; [reflexivity|]. apply Z.leb_gt in C. lia. }
  split; [exact S|].
  apply (flatten_reads_the_whole_table (Server.numbered Fixture.chat_table)
           Fixture.chat_table S).
  - repeat constructor; discriminate.
  - reflexivity.
  - reflexivity.
  - reflexivity.
Defined.

Lemma flatten_follows_the_cursors_witness :
  exists s' w',
    PageIterator.flatten Server.scripted 3 Fixture.members
        (Fixture.fresh_world
           (Endpoint.cursor_script [Sample.first_entry; Sample.last_entry]))
      = Some (Ok [VInt 1; VInt 2; VInt 3; VInt 4; VInt 5], s', w') /\
    PageIterator.next_started s' = true /\
    PageIterator.next_cursor s' = VStr "" /\
    srv w' = [] /\
    Endpoint.sent "cursor" w' = [Some (VStr ""); Some (VStr "abc")].
Proof.
  apply (flatten_follows_the_cursors [Sample.first_entry] Sample.last_entry
           Fixture.members
           (Fixture.fresh_world
              (Endpoint.cursor_script [Sample.first_entry; Sample.last_entry]))).
  - repeat constructor.
  - reflexivity.
  - reflexivity.
  - reflexivity.
  - reflexivity.
  - reflexivity.
Defined.

Lemma join_request_of_falsy_body_is_none_witness :
  truthy (VDict []) = false /\
  fst (BaseGroup.get_join_request Server.scripted Sample.get_url
         (fun _ _ => Fails "KeyError") 7 42
         (Fixture.fresh_world [Returns (VDict [])]))
    = Ok VNone.
Proof.
  split; [reflexivity|].
  apply (proj1 (join_request_of_falsy_body_is_none Server.scripted
                  Sample.get_url (Sample.as_object "JoinRequest") 7 42
                  (Fixture.fresh_world [Returns (VDict [])]) (VDict [])
                  eq_refl)).
  reflexivity.
Defined.

Lemma listings_keep_the_order_of_the_body_witness :
  exists r w',
    BaseGroup.get_roles Server.scripted Sample.get_url
        (Sample.as_object "Role") 7
        (Fixture.fresh_world [Returns Sample.roles_body])
      = (r, w') /\
    r = Ok (VList [VObj "Role" [("group", VInt 7); ("data", VInt 10)];
                   VObj "Role" [("group", VInt 7); ("data", VInt 20)]]) /\
    exists raw records objs,
      getitem_str Sample.roles_body "roles" = Ok raw /\
      iter raw = Ok records /\
      VList [VObj "Role" [("group", VInt 7); ("data", VInt 10)];
             VObj "Role" [("group", VInt 7); ("data", VInt 20)]] = VList objs /\
      Forall2 (fun record obj => Sample.as_object "Role" 7 record = Returns obj)
        records objs.
Proof.
  eexists _, _. split; [reflexivity|]. split; [reflexivity|].
  pose proof (proj1 (listings_keep_the_order_of_the_body
                       Server.scripted Sample.get_url
                       (Sample.as_object "Link" 0)
                       (Sample.as_object "Role") 7
                       (Fixture.fresh_world [Returns Sample.roles_body])))
    as Roles.
  destruct (Roles _ _ eq_refl) as (_ & _ & Order).
  apply (Order Sample.roles_body); reflexivity.
Defined.
